(** * terrainbento: the output-time scheduler of [GenericOutputWriter]

    A shallow embedding of
    [terrainbento/output_writers/generic_output_writer.py]: the iterator
    protocol that decides at which model times an output writer fires
    ([advance_iter], [_advance_iter_recursive]) and the registry of the
    files a writer produced ([is_file_registered],
    [register_output_filepath]).

    Python floats are IEEE binary64 values; they are modelled by the
    Standard Library's [spec_float] with its comparison [SFcompare], so
    that NaN, the infinities and the two zeros compare as they do in
    Python.  The writer object is a record, and every method is a
    function in a small monad that threads the record, collects the
    warnings handed to [warnings.warn] and stops at the first exception
    (keeping the mutations made before it, as Python does). *)

From Stdlib Require Import ZArith List Lia Bool Sorted Ascii.
From Stdlib Require Import Floats.PrimFloat Floats.FloatOps Floats.SpecFloat.
From stdpp Require Import base list strings pretty.

Set Default Proof Using "Type".
Set Warnings "-inexact-float".
Open Scope bool_scope.

(* ===================================================================== *)
(** ** Python floats and their comparisons *)
(* ===================================================================== *)

Module PyFloat.

  (** The literal [x] of the source, as a binary64 value. *)
Definition lit (x : PrimFloat.float) : spec_float := Prim2SF x.

  (** [0.0] (and what the integer [0] converts to in [prev_time == 0]). *)
Definition zero : spec_float := S754_zero false.

Definition nan : spec_float := S754_nan.

  (** Python's [a < b], [a <= b], [a > b], [a >= b] and [a == b]: each
      is false as soon as one side is NaN. *)
Definition lt (a b : spec_float) : bool := SFltb a b.
Definition le (a b : spec_float) : bool := SFleb a b.
Definition gt (a b : spec_float) : bool := SFltb b a.
Definition ge (a b : spec_float) : bool := SFleb b a.
Definition eq (a b : spec_float) : bool := SFeqb a b.

Definition is_nan (a : spec_float) : bool :=
    match a with S754_nan => true | _ => false end.

End PyFloat.

(* ===================================================================== *)
(** ** Data model *)
(* ===================================================================== *)

(** What [next(self._times_iter, None)] can hand back.  [PyNone] is the
    default returned on [StopIteration] (a yielded [None] is the same
    object, so the code cannot tell them apart); [PyFloat] is an
    instance of [float]; [PyOther] is any other object (an [int], a
    [str], ...), for which [isinstance(next_time, float)] is false. *)
Inductive pyvalue : Type :=
| PyNone
| PyFloat (x : spec_float)
| PyOther.

(** The object stored in [self._times_iter].  [NoneObj] is the [None] of
    [__init__]; [NotIterator] is an object without [__next__] (a list,
    say); [Iterator ys n] is an iterator that has been pulled [n] times
    and whose [k]-th pull gives [ys k].  A finite iterator gives
    [PyNone] from its end on; an infinite generator never does. *)
Inductive times_obj : Type :=
| NoneObj
| NotIterator
| Iterator (ys : nat -> pyvalue) (pulled : nat).

(** [iter(l)] for a Python list [l]. *)
Definition iter (l : list pyvalue) : times_obj :=
  Iterator (fun k => nth k l PyNone) 0.

(** [model.clock.stop], the only part of the model the scheduler reads. *)
Record Clock : Type := { stop : spec_float }.
Record Model : Type := { clock : Clock }.

(** The attributes of a [GenericOutputWriter] that the scheduler and the
    registry read or write. *)
Record writer : Type := MkWriter {
  model : Model;
  _save_first_timestep : bool;
  _save_last_timestep : bool;
  _times_iter : times_obj;
  _next_output_time : option spec_float;
  _prev_output_time : option spec_float;
  _is_exhausted : bool;
  _output_filepaths : list string
}.

Definition set_save_first_timestep (b : bool) (w : writer) : writer :=
  MkWriter (model w) b (_save_last_timestep w) (_times_iter w)
         (_next_output_time w) (_prev_output_time w) (_is_exhausted w)
         (_output_filepaths w).

Definition set_times_iter (it : times_obj) (w : writer) : writer :=
  MkWriter (model w) (_save_first_timestep w) (_save_last_timestep w) it
         (_next_output_time w) (_prev_output_time w) (_is_exhausted w)
         (_output_filepaths w).

Definition set_next_output_time (t : option spec_float) (w : writer) : writer :=
  MkWriter (model w) (_save_first_timestep w) (_save_last_timestep w)
         (_times_iter w) t (_prev_output_time w) (_is_exhausted w)
         (_output_filepaths w).

Definition set_prev_output_time (t : option spec_float) (w : writer) : writer :=
  MkWriter (model w) (_save_first_timestep w) (_save_last_timestep w)
         (_times_iter w) (_next_output_time w) t (_is_exhausted w)
         (_output_filepaths w).

Definition set_is_exhausted (b : bool) (w : writer) : writer :=
  MkWriter (model w) (_save_first_timestep w) (_save_last_timestep w)
         (_times_iter w) (_next_output_time w) (_prev_output_time w) b
         (_output_filepaths w).

Definition set_output_filepaths (l : list string) (w : writer) : writer :=
  MkWriter (model w) (_save_first_timestep w) (_save_last_timestep w)
         (_times_iter w) (_next_output_time w) (_prev_output_time w)
         (_is_exhausted w) l.

(** [GenericOutputWriter.__init__], with the defaults of the source for
    the two flags left to the caller. *)
Definition __init__ (m : Model) (save_first_timestep save_last_timestep : bool)
  : writer :=
  MkWriter m save_first_timestep save_last_timestep NoneObj None None false [].

Definition default_save_first_timestep : bool := false.
Definition default_save_last_timestep : bool := true.

(* ===================================================================== *)
(** ** Warnings and exceptions *)
(* ===================================================================== *)

(** A message is kept as the pieces the f-strings put together, so that
    the two times it carries stay readable (Python prints them with
    [repr]). *)
Inductive fragment : Type :=
| Text (s : string)
| Num (x : spec_float).

Inductive warning_cls : Type := OutputIteratorSkipWarning.

(** [OutputIteratorSkipWarning.get_message]. *)
Definition get_message (next_time prev_time : spec_float) : list fragment :=
  [Text "Next output time "; Num next_time; Text " is <= "]
  ++ [Text "previous output time "; Num prev_time; Text ". Skipping..."].

Record warning : Type := Warning {
  message : list fragment;
  category : warning_cls
}.

Inductive exn : Type :=
| AssertionError
| RecursionError
| TypeError.

Inductive result (A : Type) : Type :=
| Return (a : A)
| Raise (e : exn).
Arguments Return {A} a.
Arguments Raise {A} e.

(** What a method call leaves behind: its result, the writer as mutated
    so far, and the warnings it issued, oldest first. *)
Record outcome (A : Type) : Type := Outcome {
  value : result A;
  after : writer;
  warned : list warning
}.
Arguments Outcome {A} value after warned.
Arguments value {A} o.
Arguments after {A} o.
Arguments warned {A} o.

Definition M (A : Type) : Type := writer -> outcome A.

Definition ret {A : Type} (a : A) : M A :=
  fun w => Outcome (Return a) w [].

Definition bind {A B : Type} (m : M A) (k : A -> M B) : M B :=
  fun w =>
    let o := m w in
    match value o with
    | Return a =>
        let o' := k a (after o) in
        Outcome (value o') (after o') (warned o ++ warned o')
    | Raise e => Outcome (Raise e) (after o) (warned o)
    end.

Definition raise {A : Type} (e : exn) : M A :=
  fun w => Outcome (Raise e) w [].

Definition read {A : Type} (f : writer -> A) : M A :=
  fun w => Outcome (Return (f w)) w [].

Definition assign (f : writer -> writer) : M unit :=
  fun w => Outcome (Return tt) (f w) [].

(** [warnings.warn(msg, cls)]. *)
Definition warn (msg : list fragment) (cls : warning_cls) : M unit :=
  fun w => Outcome (Return tt) w [Warning msg cls].

(** [assert b]. *)
Definition assert_ (b : bool) : M unit :=
  if b then ret tt else raise AssertionError.

Declare Scope py_scope.
Delimit Scope py_scope with py.
Notation "'do' x <- m ; k" := (bind m (fun x => k))
  (at level 10, x name, m at level 100, k at level 200) : py_scope.
Notation "m ;; k" := (bind m (fun _ => k))
  (at level 100, k at level 200, right associativity) : py_scope.
Open Scope py_scope.

(* ===================================================================== *)
(** ** Time iterator methods *)
(* ===================================================================== *)

(** [register_times_iter]. *)
Definition register_times_iter (times_iter : times_obj) : M unit :=
  assign (set_times_iter times_iter).

(** [self.model.clock.stop]. *)
Definition stop_time (w : writer) : spec_float := stop (clock (model w)).

(** [next(self._times_iter, None)]: the iterator moves on by one value.
    On an object that is no iterator, [next] raises [TypeError]. *)
Definition next_or_None : M pyvalue :=
  fun w =>
    match _times_iter w with
    | Iterator ys n =>
        Outcome (Return (ys n)) (set_times_iter (Iterator ys (S n)) w) []
    | NoneObj | NotIterator => Outcome (Raise TypeError) w []
    end.

(** [prev_time is None or prev_time < model_stop_time]. *)
Definition is_None_or_lt (prev_time : option spec_float)
    (model_stop_time : spec_float) : bool :=
  match prev_time with
  | None => true
  | Some p => PyFloat.lt p model_stop_time
  end.

(** [(prev_time is not None) and (prev_time >= next_time)]. *)
Definition not_None_and_ge (prev_time : option spec_float)
    (next_time : spec_float) : bool :=
  match prev_time with
  | None => false
  | Some p => PyFloat.ge p next_time
  end.

(** The lines shared by the two branches that find no further time in
    range (the iterator is exhausted, or went past the stop time): the
    model stop time if the last output has to be there and was not yet,
    [None] otherwise. *)
Definition stop_or_None (save_last : bool) (prev_time : option spec_float)
    (model_stop_time : spec_float) : option spec_float :=
  if save_last then
    if is_None_or_lt prev_time model_stop_time then Some model_stop_time
    else None
  else None.

(** The warning of one skipped time: none when both times are zero. *)
Definition skip_warning (prev_time next_time : spec_float) : M unit :=
  if negb (PyFloat.eq prev_time PyFloat.zero
           && PyFloat.eq next_time PyFloat.zero)
  then warn (get_message next_time prev_time) OutputIteratorSkipWarning
  else ret tt.

(** [_advance_iter_recursive].  [recursion_counter] is a Python [int];
    the method is entered with 5 and calls itself with
    [recursion_counter - 1] only under [recursion_counter > 0], so the
    counter is a natural number and the recursion is on it. *)
Fixpoint _advance_iter_recursive (recursion_counter : nat)
  : M (option spec_float) :=
  do save_first <- read _save_first_timestep;
  if save_first then
    assign (set_save_first_timestep false) ;;
    ret (Some PyFloat.zero)
  else
    do next_time <- next_or_None;
    do prev_time <- read _prev_output_time;
    do model_stop_time <- read stop_time;
    do save_last <- read _save_last_timestep;
    match next_time with
    | PyNone => ret (stop_or_None save_last prev_time model_stop_time)
    | PyOther => raise AssertionError
    | PyFloat next_time =>
        if PyFloat.gt next_time model_stop_time then
          ret (stop_or_None save_last prev_time model_stop_time)
        else if not_None_and_ge prev_time next_time then
          match recursion_counter with
          | S counter =>
              match prev_time with
              | Some p => skip_warning p next_time
              | None => ret tt
              end ;;
              _advance_iter_recursive counter
          | O => raise RecursionError
          end
        else ret (Some next_time)
    end.

(** [self._times_iter is not None] and [hasattr(self._times_iter, '__next__')]. *)
Definition is_not_None (it : times_obj) : bool :=
  match it with NoneObj => false | _ => true end.
Definition has___next__ (it : times_obj) : bool :=
  match it with Iterator _ _ => true | _ => false end.

Definition is_Some {A : Type} (o : option A) : bool :=
  match o with Some _ => true | None => false end.

(** [self._next_output_time == model_stop_time] and
    [self._next_output_time <= model_stop_time], both read under
    [had_next] only. *)
Definition next_eq_stop (next : option spec_float) (model_stop_time : spec_float)
  : bool :=
  match next with
  | Some t => PyFloat.eq t model_stop_time
  | None => false
  end.
Definition next_le_stop (next : option spec_float) (model_stop_time : spec_float)
  : bool :=
  match next with
  | Some t => PyFloat.le t model_stop_time
  | None => true
  end.

(** [advance_iter]. *)
Definition advance_iter : M (option spec_float) :=
  do times_iter <- read _times_iter;
  assert_ (is_not_None times_iter) ;;
  assert_ (has___next__ times_iter) ;;
  do is_exhausted <- read _is_exhausted;
  if is_exhausted then
    do next <- read _next_output_time;
    assert_ (negb (is_Some next)) ;;
    ret None
  else
    do next <- read _next_output_time;
    let had_next := is_Some next in
    do model_stop_time <- read stop_time;
    (if had_next then
       assert_ (next_le_stop next model_stop_time) ;;
       assign (set_prev_output_time next)
     else ret tt) ;;
    do next_time <-
      (if had_next && next_eq_stop next model_stop_time then ret None
       else _advance_iter_recursive 5);
    (if negb (is_Some next_time) then assign (set_is_exhausted true)
     else ret tt) ;;
    assign (set_next_output_time next_time) ;;
    ret next_time.

(* ===================================================================== *)
(** ** File management *)
(* ===================================================================== *)

(** [is_file_registered]: [filepath in self._output_filepaths], the
    comparison of two [str] being that of their characters. *)
Definition is_file_registered (filepath : string) : M bool :=
  do output_filepaths <- read _output_filepaths;
  ret (bool_decide (filepath ∈ output_filepaths)).

(** [register_output_filepath]. *)
Definition register_output_filepath (filepath : string) : M unit :=
  do registered <- is_file_registered filepath;
  if negb registered then
    assign (fun w => set_output_filepaths (_output_filepaths w ++ [filepath]) w)
  else ret tt.

(* ===================================================================== *)
(** ** Vocabulary of the properties *)
(* ===================================================================== *)

(** A writer as the inheriting class sets it up: [__init__], then
    [register_times_iter]. *)
Definition new_writer (m : Model) (save_first_timestep save_last_timestep : bool)
    (times_iter : times_obj) : writer :=
  after (register_times_iter times_iter
           (__init__ m save_first_timestep save_last_timestep)).

Definition model_stopping_at (t : spec_float) : Model :=
  {| clock := {| stop := t |} |}.

(** The float [x] as a value of the times iterator. *)
Definition F (x : PrimFloat.float) : pyvalue := PyFloat (PyFloat.lit x).

(** The writer as [advance_iter] hands it to the resolution
    [_advance_iter_recursive]: the pending time, if there is one, has
    become the previous time. *)
Definition shift_prev (w : writer) : writer :=
  if is_Some (_next_output_time w)
  then set_prev_output_time (_next_output_time w) w
  else w.

(** The end of [advance_iter] once the resolution has answered. *)
Definition commit (o : outcome (option spec_float))
  : outcome (option spec_float) :=
  match value o with
  | Return r =>
      Outcome (Return r)
        (set_next_output_time r
           (if is_Some r then after o else set_is_exhausted true (after o)))
        (warned o)
  | Raise e => o
  end.

(** [advance_iter] reaches the resolution: the writer is not exhausted,
    and the pending time, if any, passes the assertion and is not the
    stop time. *)
Definition resolving (w : writer) : Prop :=
  _is_exhausted w = false
  /\ next_le_stop (_next_output_time w) (stop_time w) = true
  /\ next_eq_stop (_next_output_time w) (stop_time w) = false.

(** The value [v] pulled from the iterator is one the resolution skips:
    a float within the run that the previous time has reached. *)
Definition skipped (w : writer) (v : pyvalue) : bool :=
  match v with
  | PyFloat t =>
      negb (PyFloat.gt t (stop_time w))
      && not_None_and_ge (_prev_output_time w) t
  | PyNone | PyOther => false
  end.

(** The iterator of [w] is about to give [j] values that are skipped
    and then the value [v]. *)
Definition skips_then (w : writer) (j : nat) (v : pyvalue) : Prop :=
  exists ys k,
    _times_iter w = Iterator ys k
    /\ (forall i, i < j -> skipped w (ys (k + i)) = true)
    /\ ys (k + j) = v.

(** How many values have been pulled from the iterator. *)
Definition pulled_so_far (w : writer) : option nat :=
  match _times_iter w with
  | Iterator _ k => Some k
  | NoneObj | NotIterator => None
  end.

(** The forced final output is due: the last time step is to be saved
    and no output was made at the stop time yet. *)
Definition final_output_due (w : writer) : Prop :=
  _save_last_timestep w = true
  /\ (_prev_output_time w = None
      \/ exists p, _prev_output_time w = Some p
                   /\ PyFloat.lt p (stop_time w) = true).

(** [n] successive calls of [advance_iter], each on the writer the call
    before left; an exception ends the run. *)
Fixpoint calls (n : nat) (w : writer) : list (outcome (option spec_float)) :=
  match n with
  | O => []
  | S n' =>
      let o := advance_iter w in
      o :: match value o with
           | Return _ => calls n' (after o)
           | Raise _ => []
           end
  end.

Definition returned {A : Type} (o : outcome A) : Prop :=
  match value o with Return _ => True | Raise _ => False end.

(** The times a run handed out (its results other than [None]). *)
Definition output_of (o : outcome (option spec_float)) : option spec_float :=
  match value o with Return r => r | Raise _ => None end.
Definition outputs (tr : list (outcome (option spec_float))) : list spec_float :=
  omap output_of tr.

(** One output time after another: not smaller, and not the same. *)
Definition increasing (a b : spec_float) : Prop :=
  PyFloat.le a b = true /\ PyFloat.eq a b = false.

(** The pending time is within the run and beyond the previous one
    (or both are zero). *)
Definition next_in_range (w : writer) : Prop :=
  match _next_output_time w with
  | None => True
  | Some t =>
      PyFloat.le t (stop_time w) = true
      /\ match _prev_output_time w with
         | None => True
         | Some p =>
             PyFloat.lt p t = true
             \/ (PyFloat.eq p PyFloat.zero = true
                 /\ PyFloat.eq t PyFloat.zero = true)
         end
  end.

(** What the scheduler promises of a run: the times handed out
    increase, and after every call the pending time is in range. *)
Definition monotone_run (tr : list (outcome (option spec_float))) : Prop :=
  StronglySorted increasing (outputs tr)
  /\ Forall (fun o => next_in_range (after o)) tr.

(** The pending time is within the run and greater than the previous
    one, with no exception for zero. *)
Definition next_beyond_prev (w : writer) : Prop :=
  match _next_output_time w with
  | None => True
  | Some t =>
      PyFloat.le t (stop_time w) = true
      /\ match _prev_output_time w with
         | None => True
         | Some p => PyFloat.lt p t = true
         end
  end.

(** A run whose times increase strictly, the pending time being after
    every call within the run and greater than the previous one. *)
Definition strictly_monotone_run (tr : list (outcome (option spec_float)))
  : Prop :=
  StronglySorted (fun a b => PyFloat.lt a b = true) (outputs tr)
  /\ Forall (fun o => next_beyond_prev (after o)) tr.

(** The iterator never gives NaN. *)
Definition no_nan (it : times_obj) : Prop :=
  match it with
  | Iterator ys _ => forall i x, ys i = PyFloat x -> PyFloat.is_nan x = false
  | NoneObj | NotIterator => True
  end.

(** The same, decided on a list. *)
Definition no_nan_in (l : list pyvalue) : bool :=
  forallb (fun v => match v with
                    | PyFloat x => negb (PyFloat.is_nan x)
                    | PyNone | PyOther => true
                    end) l.

(** The invariant of the scheduler, for an iterator and a stop time
    free of NaN: the first time step is pending on a fresh writer only;
    the pending time is within the run and beyond the previous one; an
    exhausted writer has no pending time. *)
Definition sound (w : writer) : Prop :=
  no_nan (_times_iter w)
  /\ PyFloat.is_nan (stop_time w) = false
  /\ (_save_first_timestep w = true ->
      _prev_output_time w = None /\ _next_output_time w = None
      /\ PyFloat.le PyFloat.zero (stop_time w) = true)
  /\ (forall p, _prev_output_time w = Some p -> PyFloat.is_nan p = false)
  /\ (forall t, _next_output_time w = Some t ->
      PyFloat.le t (stop_time w) = true
      /\ forall p, _prev_output_time w = Some p -> PyFloat.lt p t = true)
  /\ (_is_exhausted w = true -> _next_output_time w = None).

(** The resolution with the warnings [ws] issued before it. *)
Definition after_warnings {A : Type} (ws : list warning) (o : outcome A)
  : outcome A :=
  Outcome (value o) (after o) (ws ++ warned o).

(** The warnings [skip_warning] issues. *)
Definition skip_warnings (prev_time : option spec_float) (next_time : spec_float)
  : list warning :=
  match prev_time with
  | Some p =>
      if negb (PyFloat.eq p PyFloat.zero && PyFloat.eq next_time PyFloat.zero)
      then [Warning (get_message next_time p) OutputIteratorSkipWarning]
      else []
  | None => []
  end.

(** The warnings of the [j] values skipped from the [k]-th on. *)
Fixpoint warnings_of_skips (prev_time : option spec_float)
    (ys : nat -> pyvalue) (k j : nat) : list warning :=
  match j with
  | O => []
  | S j' =>
      match ys k with
      | PyFloat t => skip_warnings prev_time t
      | PyNone | PyOther => []
      end ++ warnings_of_skips prev_time ys (S k) j'
  end.

(** The lists of the examples. *)
Definition regressions5 : list pyvalue :=
  [F 1.0; F 0.9; F 0.8; F 0.7; F 0.6; F 0.5].
Definition regressions6 : list pyvalue :=
  [F 1.0; F 0.9; F 0.8; F 0.7; F 0.6; F 0.5; F 0.4].
Definition out_of_order : list pyvalue := [F 1.0; F 2.0; F 1.5; F 5.0].
Definition overshoot : list pyvalue := [F 100.0].

(* ===================================================================== *)
(** ** The name of a writer and its files *)
(* ===================================================================== *)

(** [name or "output-writer"]: [None] and the empty string are false. *)
Definition name_or_default (name : option string) : string :=
  match name with
  | None => "output-writer"
  | Some EmptyString => "output-writer"
  | Some n => n
  end.

(** The f-string [-id{self._id}]: the id in decimal. *)
Definition id_suffix (id : nat) : string := "-id" +:+ pretty id.

(** The first lines of [__init__] that give a writer its id and its
    name.  [_id_iter] is the [itertools.count()] that all writers
    share, given by the next number it hands out; the result is the
    id, the name and the counter as the constructor leaves it. *)
Definition init_id_name (name : option string) (add_id : bool) (_id_iter : nat)
  : nat * string * nat :=
  let _id := _id_iter in
  let _name := name_or_default name in
  let _name := _name +:+ (if add_id then id_suffix _id else "") in
  (_id, _name, S _id_iter).

(** What [os.remove] does to one path: it removes the file, raises a
    [WindowsError] (the file is locked), or raises something else. *)
Inductive removal : Type :=
| Removed
| RaisedWindowsError
| RaisedOther.

Section Files.

(** [os.path.splitext] and [os.remove] are not code of the writer: the
    methods below are given for any of them.  [filesystem] is whatever
    [os.remove] acts on. *)
Variable splitext : string -> string * string.
Variable filesystem : Type.
Variable os_remove : string -> filesystem -> removal * filesystem.

(** [os.path.splitext(filepath)[1][1:]]: the extension without its
    first character (the dot); the slice of an empty string is empty. *)
Definition file_ext (filepath : string) : string :=
  match snd (splitext filepath) with
  | EmptyString => EmptyString
  | String _ ext => ext
  end.

(** [only_extension is None or file_ext == only_extension]. *)
Definition selected (only_extension : option string) (filepath : string)
  : bool :=
  match only_extension with
  | None => true
  | Some e => String.eqb (file_ext filepath) e
  end.

(** [get_output_filepaths]: the loop appends the selected paths to a
    new list. *)
Definition get_output_filepaths (only_extension : option string)
  : M (list string) :=
  do output_filepaths <- read _output_filepaths;
  ret (fold_left
         (fun return_filepaths filepath =>
            if selected only_extension filepath
            then return_filepaths ++ [filepath]
            else return_filepaths)
         output_filepaths []).

Definition windows_message : string :=
  "The Windows OS is picky about file-locks and did " +:+
  "not permit terrainbento to remove the netcdf files.".

(** The loop of [delete_output_files] from the path it has reached:
    the paths kept so far, the file system and what was printed.  The
    result is [None] for the kept paths when an exception other than
    [WindowsError] ends the loop. *)
Fixpoint delete_loop (only_extension : option string)
    (output_filepaths keep_filepaths : list string) (fs : filesystem)
    (printed : list string)
  : option (list string) * filesystem * list string :=
  match output_filepaths with
  | [] => (Some keep_filepaths, fs, printed)
  | filepath :: rest =>
      if selected only_extension filepath then
        match os_remove filepath fs with
        | (Removed, fs') =>
            delete_loop only_extension rest keep_filepaths fs' printed
        | (RaisedWindowsError, fs') =>
            delete_loop only_extension rest (keep_filepaths ++ [filepath])
              fs' (printed ++ [windows_message])
        | (RaisedOther, fs') => (None, fs', printed)
        end
      else
        delete_loop only_extension rest (keep_filepaths ++ [filepath])
          fs printed
  end.

(** What [delete_output_files] leaves: whether it came to its end, the
    writer, the file system and what it printed. *)
Record deletion : Type := Deletion {
  completed : bool;
  writer_after : writer;
  files_after : filesystem;
  printed_lines : list string
}.

(** [delete_output_files]: the registry is assigned after the loop
    only, so an exception leaves it as it was. *)
Definition delete_output_files (only_extension : option string)
    (w : writer) (fs : filesystem) : deletion :=
  match delete_loop only_extension (_output_filepaths w) [] fs [] with
  | (Some keep_filepaths, fs', printed) =>
      Deletion true (set_output_filepaths keep_filepaths w) fs' printed
  | (None, fs', printed) => Deletion false w fs' printed
  end.

End Files.

#[global] Arguments completed {filesystem} _.
#[global] Arguments writer_after {filesystem} _.
#[global] Arguments files_after {filesystem} _.
#[global] Arguments printed_lines {filesystem} _.

(** The paths that [only_extension] leaves alone. *)
Definition unselected (splitext : string -> string * string)
    (only_extension : option string) (filepath : string) : bool :=
  negb (selected splitext only_extension filepath).

(** The registrations of [filepaths], one after the other. *)
Definition register_all (filepaths : list string) (w : writer) : writer :=
  fold_left (fun w filepath => after (register_output_filepath filepath w))
    filepaths w.

(** For the examples, [os.path.splitext] on a file name without
    directory and without leading dot: the extension starts at the last
    dot. *)
Fixpoint splitext_name (name : string) : string * string :=
  match name with
  | EmptyString => (EmptyString, EmptyString)
  | String c rest =>
      let (root, ext) := splitext_name rest in
      match ext with
      | EmptyString =>
          if Ascii.eqb c "."%char then (EmptyString, name)
          else (String c root, EmptyString)
      | String _ _ => (String c root, ext)
      end
  end.

(** For the examples, [os.remove] on a directory given by the names of
    its files, some of them locked: a locked file raises [WindowsError],
    the empty path and a file that is not there raise
    [FileNotFoundError], any other file is removed. *)
Definition remove_in_dir (locked : list string) (filepath : string)
    (present : list string) : removal * list string :=
  if bool_decide (filepath ∈ locked) then (RaisedWindowsError, present)
  else if bool_decide (filepath ∈ present)
  then (Removed, List.filter (fun f => negb (String.eqb f filepath)) present)
  else (RaisedOther, present).

(** The iterator gives floats only, or nothing. *)
Definition only_floats (it : times_obj) : Prop :=
  match it with
  | Iterator ys _ => forall i, ys i <> PyOther
  | NoneObj | NotIterator => False
  end.

(** A writer without pending time that is not exhausted has made no
    output yet (it is fresh from [__init__]). *)
Definition fresh_if_idle (w : writer) : Prop :=
  _next_output_time w = None -> _is_exhausted w = false ->
  _prev_output_time w = None.

(** The previous output time is within the run. *)
Definition prev_in_range (w : writer) : Prop :=
  forall p, _prev_output_time w = Some p ->
            PyFloat.le p (stop_time w) = true.

(** The first time step is behind: the flag is consumed, and the
    writer is exhausted or has a pending time that is not below zero
    (or is NaN, which the assertion of the next call rejects). *)
Definition past_zero (w : writer) : Prop :=
  _save_first_timestep w = false
  /\ (_is_exhausted w = true
      \/ exists t, _next_output_time w = Some t
                   /\ (PyFloat.le PyFloat.zero t = true
                       \/ PyFloat.is_nan t = true)).

(** No time of the list is zero. *)
Definition none_zero (l : list spec_float) : Prop :=
  Forall (fun x => PyFloat.eq x PyFloat.zero = false) l.

(** With [save_last_timestep] set, [last_output] being the time handed
    out last, if any: as long as the writer is not exhausted that time
    is the pending one, and a writer that handed out nothing has made no
    output; once the writer is exhausted that time equals the stop
    time. *)
Definition last_output_kept (w : writer) (last_output : option spec_float)
  : Prop :=
  _save_last_timestep w = true
  /\ (_is_exhausted w = true ->
      exists t, last_output = Some t
                /\ PyFloat.eq t (stop_time w) = true)
  /\ (_is_exhausted w = false ->
      _next_output_time w = last_output
      /\ (last_output = None -> _prev_output_time w = None)).

(** The time handed out last once a call has returned [r]. *)
Definition last_output_after (r last_output : option spec_float)
  : option spec_float :=
  match r with
  | Some t => Some t
  | None => last_output
  end.

(** An iterator over the floats of [l], then over [rest]. *)
Definition floats_then (l : list spec_float) (rest : list pyvalue)
  : times_obj :=
  iter (map PyFloat l ++ rest).

(* ===================================================================== *)
(** ** The order of floats *)
(* ===================================================================== *)

Section FloatOrder.
  Implicit Types a b c : spec_float.

Lemma SFcompare_Some a b :
    PyFloat.is_nan a = false -> PyFloat.is_nan b = false ->
    exists r, SFcompare a b = Some r.
  Proof. destruct a, b; simpl; try discriminate; eauto. Qed.

  (** Swapping the two sides of a comparison swaps its result. *)
Lemma SFcompare_swap a b :
    SFcompare b a = option_map CompOpp (SFcompare a b).
  Proof.
    destruct a as [sa|sa| |sa ma ea], b as [sb|sb| |sb mb eb]; simpl;
      try reflexivity;
      try (destruct sa; reflexivity); try (destruct sb; reflexivity);
      try (destruct sa, sb; reflexivity).
    change (Pos.compare_cont Eq mb ma) with (Pos.compare mb ma).
    change (Pos.compare_cont Eq ma mb) with (Pos.compare ma mb).
    rewrite (Z.compare_antisym ea eb), (Pos.compare_antisym ma mb).
    destruct sa, sb; simpl; try reflexivity;
      destruct (ea ?= eb)%Z; simpl; try reflexivity;
      destruct (ma ?= mb)%positive; reflexivity.
  Qed.

Lemma pyfloat_lt_not_nan a b :
    PyFloat.lt a b = true ->
    PyFloat.is_nan a = false /\ PyFloat.is_nan b = false.
  Proof. destruct a, b; simpl; try discriminate; auto. Qed.

Lemma pyfloat_le_not_nan a b :
    PyFloat.le a b = true ->
    PyFloat.is_nan a = false /\ PyFloat.is_nan b = false.
  Proof. destruct a, b; simpl; try discriminate; auto. Qed.

Lemma pyfloat_not_ge_lt a b :
    PyFloat.is_nan a = false -> PyFloat.is_nan b = false ->
    PyFloat.ge a b = false -> PyFloat.lt a b = true.
  Proof.
    intros Ha Hb. unfold PyFloat.ge, PyFloat.lt, SFleb, SFltb.
    rewrite (SFcompare_swap a b).
    destruct (SFcompare_Some a b Ha Hb) as [[] ->]; simpl; congruence.
  Qed.

Lemma pyfloat_not_gt_le a b :
    PyFloat.is_nan a = false -> PyFloat.is_nan b = false ->
    PyFloat.gt a b = false -> PyFloat.le a b = true.
  Proof.
    intros Ha Hb. unfold PyFloat.gt, PyFloat.le, SFleb, SFltb.
    rewrite (SFcompare_swap a b).
    destruct (SFcompare_Some a b Ha Hb) as [[] ->]; simpl; congruence.
  Qed.

Lemma pyfloat_lt_not_gt a b : PyFloat.lt a b = true -> PyFloat.gt a b = false.
  Proof.
    unfold PyFloat.gt, PyFloat.lt, SFltb. rewrite (SFcompare_swap a b).
    destruct (SFcompare a b) as [[]|]; simpl; congruence.
  Qed.

Lemma pyfloat_le_not_gt a b : PyFloat.le a b = true -> PyFloat.gt a b = false.
  Proof.
    unfold PyFloat.gt, PyFloat.le, SFltb, SFleb. rewrite (SFcompare_swap a b).
    destruct (SFcompare a b) as [[]|]; simpl; congruence.
  Qed.

Lemma pyfloat_lt_ge a b : PyFloat.lt a b = true -> PyFloat.ge b a = true.
  Proof.
    unfold PyFloat.ge, PyFloat.lt, SFltb, SFleb.
    destruct (SFcompare a b) as [[]|]; congruence.
  Qed.

Lemma pyfloat_eq_le a b : PyFloat.eq a b = true -> PyFloat.le a b = true.
  Proof.
    unfold PyFloat.eq, PyFloat.le, SFeqb, SFleb.
    destruct (SFcompare a b) as [[]|]; congruence.
  Qed.

Lemma pyfloat_lt_le a b : PyFloat.lt a b = true -> PyFloat.le a b = true.
  Proof.
    unfold PyFloat.lt, PyFloat.le, SFltb, SFleb.
    destruct (SFcompare a b) as [[]|]; congruence.
  Qed.

Lemma pyfloat_lt_not_eq a b : PyFloat.lt a b = true -> PyFloat.eq a b = false.
  Proof.
    unfold PyFloat.lt, PyFloat.eq, SFltb, SFeqb.
    destruct (SFcompare a b) as [[]|]; congruence.
  Qed.

Lemma pyfloat_le_not_eq_lt a b :
    PyFloat.le a b = true -> PyFloat.eq a b = false -> PyFloat.lt a b = true.
  Proof.
    unfold PyFloat.lt, PyFloat.eq, PyFloat.le, SFltb, SFeqb, SFleb.
    destruct (SFcompare a b) as [[]|]; congruence.
  Qed.

Lemma pyfloat_le_refl a : PyFloat.is_nan a = false -> PyFloat.le a a = true.
  Proof.
    unfold PyFloat.le, SFleb.
    destruct a as [s|s| |s m e]; simpl; try discriminate; try reflexivity.
    - destruct s; reflexivity.
    - change (Pos.compare_cont Eq m m) with (Pos.compare m m).
      rewrite Z.compare_refl, Pos.compare_refl. destruct s; reflexivity.
  Qed.

Lemma pyfloat_lt_irrefl a : PyFloat.lt a a = false.
  Proof.
    unfold PyFloat.lt, SFltb.
    destruct a as [s|s| |s m e]; simpl; try reflexivity.
    - destruct s; reflexivity.
    - change (Pos.compare_cont Eq m m) with (Pos.compare m m).
      rewrite Z.compare_refl, Pos.compare_refl. destruct s; reflexivity.
  Qed.

Lemma pyfloat_lt_trans a b c :
    PyFloat.lt a b = true -> PyFloat.lt b c = true -> PyFloat.lt a c = true.
  Proof.
    unfold PyFloat.lt, SFltb.
    destruct a as [sa|sa| |sa ma ea], b as [sb|sb| |sb mb eb],
             c as [sc|sc| |sc mc ec]; simpl;
      try discriminate; try reflexivity;
      try (destruct sa; simpl; try discriminate; try reflexivity);
      try (destruct sb; simpl; try discriminate; try reflexivity);
      try (destruct sc; simpl; try discriminate; try reflexivity).
    all: change (Pos.compare_cont Eq ma mb) with (Pos.compare ma mb).
    all: change (Pos.compare_cont Eq mb mc) with (Pos.compare mb mc).
    all: change (Pos.compare_cont Eq ma mc) with (Pos.compare ma mc).
    all: destruct (Z.compare_spec ea eb), (Z.compare_spec eb ec),
           (Z.compare_spec ea ec); simpl; try discriminate; try reflexivity;
           try (intros; exfalso; lia).
    all: destruct (Pos.compare_spec ma mb), (Pos.compare_spec mb mc),
           (Pos.compare_spec ma mc); simpl; try discriminate; try reflexivity;
         intros; exfalso; lia.
  Qed.

End FloatOrder.

(* ===================================================================== *)
(** ** The two methods, case by case *)
(* ===================================================================== *)

Lemma outcome_eta {A : Type} (o : outcome A) :
  o = Outcome (value o) (after o) (warned o).
Proof. destruct o; reflexivity. Qed.

(** One step of the resolution, without the monad. *)
Lemma _advance_iter_recursive_eq (n : nat) (w : writer) :
  _advance_iter_recursive n w =
  if _save_first_timestep w then
    Outcome (Return (Some PyFloat.zero)) (set_save_first_timestep false w) []
  else
    match _times_iter w with
    | NoneObj | NotIterator => Outcome (Raise TypeError) w []
    | Iterator ys k =>
        let w' := set_times_iter (Iterator ys (S k)) w in
        let final :=
          stop_or_None (_save_last_timestep w) (_prev_output_time w)
            (stop_time w) in
        match ys k with
        | PyNone => Outcome (Return final) w' []
        | PyOther => Outcome (Raise AssertionError) w' []
        | PyFloat t =>
            if PyFloat.gt t (stop_time w) then Outcome (Return final) w' []
            else if not_None_and_ge (_prev_output_time w) t then
              match n with
              | S n' =>
                  after_warnings (skip_warnings (_prev_output_time w) t)
                    (_advance_iter_recursive n' w')
              | O => Outcome (Raise RecursionError) w' []
              end
            else Outcome (Return (Some t)) w' []
        end
    end.
Proof.
  destruct w as [m sf sl it nx pv ex fp].
  destruct n as [|n'].
  all: unfold _advance_iter_recursive; fold _advance_iter_recursive.
  all: unfold bind, read, assign, ret, raise, next_or_None, stop_time,
         set_times_iter, set_save_first_timestep; simpl.
  all: destruct sf; simpl; [reflexivity|].
  all: destruct it as [| |ys k]; simpl; try reflexivity.
  all: destruct (ys k) as [|t|]; simpl; try reflexivity.
  all: destruct (PyFloat.gt t (stop (clock m))); simpl; try reflexivity.
  all: destruct pv as [p|]; simpl; try reflexivity.
  all: destruct (PyFloat.ge p t); simpl; try reflexivity.
  all: unfold skip_warning, after_warnings, warn, ret.
  all: destruct (negb _); simpl; reflexivity.
Qed.

(** [advance_iter], without the monad. *)
Lemma advance_iter_eq (w : writer) :
  advance_iter w =
  match _times_iter w with
  | NoneObj | NotIterator => Outcome (Raise AssertionError) w []
  | Iterator _ _ =>
      if _is_exhausted w then
        if is_Some (_next_output_time w)
        then Outcome (Raise AssertionError) w []
        else Outcome (Return None) w []
      else if negb (next_le_stop (_next_output_time w) (stop_time w)) then
        Outcome (Raise AssertionError) w []
      else if next_eq_stop (_next_output_time w) (stop_time w) then
        Outcome (Return None)
          (set_next_output_time None (set_is_exhausted true (shift_prev w))) []
      else commit (_advance_iter_recursive 5 (shift_prev w))
  end.
Proof.
  destruct w as [m sf sl it nx pv ex fp].
  unfold advance_iter, shift_prev, commit.
  generalize (_advance_iter_recursive 5) as resolution. intros resolution.
  unfold bind, read, assign, ret, raise, assert_, stop_time; simpl.
  destruct it as [| |ys k]; simpl; try reflexivity.
  destruct ex; simpl.
  { destruct nx; reflexivity. }
  destruct nx as [t|]; simpl.
  - destruct (PyFloat.le t (stop (clock m))); simpl; [|reflexivity].
    unfold set_prev_output_time; simpl.
    destruct (PyFloat.eq t (stop (clock m))); simpl; [reflexivity|].
    destruct (resolution _) as [[[r|]|e] a l]; simpl;
      rewrite ?app_nil_r; reflexivity.
  - destruct (resolution _) as [[[r|]|e] a l]; simpl;
      rewrite ?app_nil_r; reflexivity.
Qed.

#[global] Arguments _advance_iter_recursive : simpl never.
#[global] Arguments advance_iter : simpl never.

(** *** What the resolution leaves untouched *)

Lemma resolution_frame (n : nat) (w : writer) :
  let w' := after (_advance_iter_recursive n w) in
  model w' = model w
  /\ _save_last_timestep w' = _save_last_timestep w
  /\ _next_output_time w' = _next_output_time w
  /\ _prev_output_time w' = _prev_output_time w
  /\ _is_exhausted w' = _is_exhausted w
  /\ _output_filepaths w' = _output_filepaths w.
Proof.
  revert w. induction n as [|n IH]; intros w; cbv zeta;
    rewrite _advance_iter_recursive_eq.
  all: destruct (_save_first_timestep w); [simpl; tauto|].
  all: destruct (_times_iter w) as [| |ys k]; [simpl; tauto..|].
  all: cbv zeta; destruct (ys k) as [|t|]; [simpl; tauto| |simpl; tauto].
  all: destruct (PyFloat.gt t (stop_time w)); [simpl; tauto|].
  all: destruct (not_None_and_ge _ t); [|simpl; tauto].
  - simpl; tauto.
  - unfold after_warnings; simpl.
    specialize (IH (set_times_iter (Iterator ys (S k)) w)). simpl in IH.
    exact IH.
Qed.

(** The iterator is the same, pulled at least once more as soon as the
    first time step is not pending. *)
Lemma resolution_iterator (n : nat) (w : writer) (ys : nat -> pyvalue) (k : nat) :
  _times_iter w = Iterator ys k ->
  exists k', _times_iter (after (_advance_iter_recursive n w)) = Iterator ys k'
             /\ k <= k' <= k + S n.
Proof.
  revert w k. induction n as [|n IH]; intros w k Hit;
    rewrite _advance_iter_recursive_eq, Hit.
  all: destruct (_save_first_timestep w); [exists k; simpl; split; [exact Hit|lia]|].
  all: cbv zeta; destruct (ys k) as [|t|];
    [exists (S k); simpl; split; [reflexivity|lia]|
    |exists (S k); simpl; split; [reflexivity|lia]].
  all: destruct (PyFloat.gt t (stop_time w));
    [exists (S k); simpl; split; [reflexivity|lia]|].
  all: destruct (not_None_and_ge _ t);
    [|exists (S k); simpl; split; [reflexivity|lia]].
  - exists (S k); simpl; split; [reflexivity|lia].
  - unfold after_warnings; simpl.
    destruct (IH (set_times_iter (Iterator ys (S k)) w) (S k) eq_refl)
      as (k' & Hk' & Hle).
    exists k'. split; [exact Hk'|lia].
Qed.

(** *** Skipping *)

Lemma set_times_iter_same (w : writer) (it : times_obj) :
  _times_iter w = it -> set_times_iter it w = w.
Proof. destruct w; simpl; intros ->; reflexivity. Qed.

Lemma skipped_inv (w : writer) (v : pyvalue) :
  skipped w v = true ->
  exists t, v = PyFloat t
            /\ PyFloat.gt t (stop_time w) = false
            /\ not_None_and_ge (_prev_output_time w) t = true.
Proof.
  destruct v as [|t|]; simpl; try discriminate.
  intros [Hgt Hge]%andb_true_iff. apply negb_true_iff in Hgt. eauto.
Qed.

(** [j] skipped values cost [j] of the retries and leave the resolution
    at the value after them. *)
Lemma resolution_skips (j n : nat) (w : writer) (ys : nat -> pyvalue) (k : nat) :
  _save_first_timestep w = false ->
  _times_iter w = Iterator ys k ->
  (forall i, i < j -> skipped w (ys (k + i)) = true) ->
  _advance_iter_recursive (j + n) w =
  after_warnings (warnings_of_skips (_prev_output_time w) ys k j)
    (_advance_iter_recursive n (set_times_iter (Iterator ys (k + j)) w)).
Proof.
  revert w k. induction j as [|j IH]; intros w k Hfirst Hit Hskip.
  - rewrite Nat.add_0_r, (set_times_iter_same w _ Hit). simpl.
    unfold after_warnings. simpl. apply outcome_eta.
  - destruct (skipped_inv w (ys k)) as (t & Hyk & Hgt & Hge).
    { rewrite <- (Nat.add_0_r k) at 1. apply Hskip. lia. }
    change (S j + n) with (S (j + n)).
    rewrite _advance_iter_recursive_eq, Hfirst, Hit. cbv zeta.
    rewrite Hyk, Hgt, Hge.
    rewrite (IH (set_times_iter (Iterator ys (S k)) w) (S k)).
    + simpl. rewrite Hyk. unfold after_warnings. simpl.
      rewrite <- app_assoc, Nat.add_succ_r. reflexivity.
    + exact Hfirst.
    + reflexivity.
    + intros i Hi. specialize (Hskip (S i) ltac:(lia)).
      rewrite Nat.add_succ_r in Hskip. exact Hskip.
Qed.

(** *** The value that ends the resolution *)

Section Ending.
  Variables (n : nat) (w : writer) (ys : nat -> pyvalue) (k : nat).
  Hypothesis Hfirst : _save_first_timestep w = false.
  Hypothesis Hit : _times_iter w = Iterator ys k.

  Abbreviation w' := (set_times_iter (Iterator ys (S k)) w).
  Abbreviation final :=
    (stop_or_None (_save_last_timestep w) (_prev_output_time w) (stop_time w)).

Lemma resolution_exhausted :
    ys k = PyNone ->
    _advance_iter_recursive n w = Outcome (Return final) w' [].
  Proof using Hfirst Hit.
    intros Hyk. rewrite _advance_iter_recursive_eq, Hfirst, Hit. cbv zeta.
    rewrite Hyk. reflexivity.
  Qed.

Lemma resolution_overshoot (t : spec_float) :
    ys k = PyFloat t -> PyFloat.gt t (stop_time w) = true ->
    _advance_iter_recursive n w = Outcome (Return final) w' [].
  Proof using Hfirst Hit.
    intros Hyk Hgt. rewrite _advance_iter_recursive_eq, Hfirst, Hit. cbv zeta.
    rewrite Hyk, Hgt. reflexivity.
  Qed.

Lemma resolution_not_float :
    ys k = PyOther ->
    _advance_iter_recursive n w = Outcome (Raise AssertionError) w' [].
  Proof using Hfirst Hit.
    intros Hyk. rewrite _advance_iter_recursive_eq, Hfirst, Hit. cbv zeta.
    rewrite Hyk. reflexivity.
  Qed.

Lemma resolution_valid (t : spec_float) :
    ys k = PyFloat t -> PyFloat.gt t (stop_time w) = false ->
    not_None_and_ge (_prev_output_time w) t = false ->
    _advance_iter_recursive n w = Outcome (Return (Some t)) w' [].
  Proof using Hfirst Hit.
    intros Hyk Hgt Hge. rewrite _advance_iter_recursive_eq, Hfirst, Hit.
    cbv zeta. rewrite Hyk, Hgt, Hge. reflexivity.
  Qed.

Lemma resolution_no_retry_left :
    n = 0 -> skipped w (ys k) = true ->
    _advance_iter_recursive n w = Outcome (Raise RecursionError) w' [].
  Proof using Hfirst Hit.
    intros -> (t & Hyk & Hgt & Hge)%skipped_inv.
    rewrite _advance_iter_recursive_eq, Hfirst, Hit. cbv zeta.
    rewrite Hyk, Hgt, Hge. reflexivity.
  Qed.
End Ending.

(** *** The invariant *)

Lemma resolution_first_consumed (n : nat) (w : writer) :
  value (_advance_iter_recursive n w) <> Raise TypeError ->
  _save_first_timestep (after (_advance_iter_recursive n w)) = false.
Proof.
  revert w. induction n as [|n IH]; intros w;
    rewrite _advance_iter_recursive_eq.
  all: destruct (_save_first_timestep w) eqn:Hfirst; [reflexivity|].
  all: destruct (_times_iter w) as [| |ys k]; [simpl; congruence..|].
  all: cbv zeta; destruct (ys k) as [|t|]; [intros _; exact Hfirst| |intros _; exact Hfirst].
  all: destruct (PyFloat.gt t (stop_time w)); [intros _; exact Hfirst|].
  all: destruct (not_None_and_ge _ t); [|intros _; exact Hfirst].
  - intros _; exact Hfirst.
  - unfold after_warnings; simpl. apply IH.
Qed.

Lemma stop_or_None_Some (sl : bool) (prev : option spec_float) (s t : spec_float) :
  stop_or_None sl prev s = Some t ->
  t = s /\ sl = true /\ is_None_or_lt prev s = true.
Proof.
  unfold stop_or_None. destruct sl; [|discriminate].
  destruct (is_None_or_lt prev s); [|discriminate].
  intros [= <-]. auto.
Qed.

(** A time the resolution hands out is within the run and beyond the
    previous time. *)
Lemma resolution_in_range (n : nat) (w : writer) (t : spec_float) :
  no_nan (_times_iter w) ->
  PyFloat.is_nan (stop_time w) = false ->
  (_save_first_timestep w = true ->
   _prev_output_time w = None
   /\ PyFloat.le PyFloat.zero (stop_time w) = true) ->
  (forall p, _prev_output_time w = Some p -> PyFloat.is_nan p = false) ->
  value (_advance_iter_recursive n w) = Return (Some t) ->
  PyFloat.le t (stop_time w) = true
  /\ forall p, _prev_output_time w = Some p -> PyFloat.lt p t = true.
Proof.
  revert w. induction n as [|n IH]; intros w Hnan Hstop Hfirst Hprev;
    rewrite _advance_iter_recursive_eq.
  all: destruct (_save_first_timestep w) eqn:Ef;
    [ simpl; intros [= <-]; destruct (Hfirst eq_refl) as [Hp Hz];
      split; [exact Hz | intros p Hp'; congruence] | ].
  all: destruct (_times_iter w) as [| |ys k] eqn:Eit; [discriminate..|].
  all: assert (Hfinal : forall u,
         stop_or_None (_save_last_timestep w) (_prev_output_time w)
           (stop_time w) = Some u ->
         PyFloat.le u (stop_time w) = true
         /\ forall p, _prev_output_time w = Some p -> PyFloat.lt p u = true)
    by (intros u (-> & _ & Hlt)%stop_or_None_Some; split;
        [ apply pyfloat_le_refl, Hstop
        | intros p Hp; rewrite Hp in Hlt; exact Hlt ]).
  all: cbv zeta; destruct (ys k) as [|x|] eqn:Eyk;
    [ simpl; intros [= Hu]; apply Hfinal, Hu | | discriminate ].
  all: destruct (PyFloat.gt x (stop_time w)) eqn:Egt;
    [ simpl; intros [= Hu]; apply Hfinal, Hu | ].
  all: assert (Hx : PyFloat.is_nan x = false) by (apply (Hnan k), Eyk).
  all: destruct (not_None_and_ge (_prev_output_time w) x) eqn:Ege.
  all: try discriminate.
  - simpl. intros [= <-]. split.
    + apply pyfloat_not_gt_le; assumption.
    + intros p Hp. rewrite Hp in Ege. simpl in Ege.
      apply pyfloat_not_ge_lt; eauto.
  - unfold after_warnings; simpl. intros Hv.
    apply (IH (set_times_iter (Iterator ys (S k)) w));
      [ exact Hnan | exact Hstop | simpl; rewrite Ef; discriminate
      | exact Hprev | exact Hv ].
  - simpl. intros [= <-]. split.
    + apply pyfloat_not_gt_le; assumption.
    + intros p Hp. rewrite Hp in Ege. simpl in Ege.
      apply pyfloat_not_ge_lt; eauto.
Qed.

(** *** [advance_iter] on a sound writer *)

Lemma shift_prev_fields (w : writer) :
  model (shift_prev w) = model w
  /\ _save_first_timestep (shift_prev w) = _save_first_timestep w
  /\ _save_last_timestep (shift_prev w) = _save_last_timestep w
  /\ _times_iter (shift_prev w) = _times_iter w
  /\ _next_output_time (shift_prev w) = _next_output_time w
  /\ _is_exhausted (shift_prev w) = _is_exhausted w
  /\ _output_filepaths (shift_prev w) = _output_filepaths w
  /\ _prev_output_time (shift_prev w) =
     match _next_output_time w with
     | Some t => Some t
     | None => _prev_output_time w
     end.
Proof.
  unfold shift_prev.
  destruct (_next_output_time w) eqn:E; simpl; rewrite ?E;
    repeat split; reflexivity.
Qed.

Lemma advance_iter_resolving (w : writer) (ys : nat -> pyvalue) (k : nat) :
  _times_iter w = Iterator ys k -> resolving w ->
  advance_iter w = commit (_advance_iter_recursive 5 (shift_prev w)).
Proof.
  intros Hit (Hex & Hle & Heq).
  rewrite advance_iter_eq, Hit, Hex, Hle, Heq. reflexivity.
Qed.

Lemma advance_iter_exhausted (w : writer) (ys : nat -> pyvalue) (k : nat) :
  _times_iter w = Iterator ys k -> _is_exhausted w = true ->
  _next_output_time w = None ->
  advance_iter w = Outcome (Return None) w [].
Proof.
  intros Hit Hex Hnext. rewrite advance_iter_eq, Hit, Hex, Hnext. reflexivity.
Qed.

(** What a call that returns leaves behind, whatever the writer: the
    result is the new pending time, and [None] goes with exhaustion. *)
Lemma advance_iter_returned (w : writer) (r : option spec_float) :
  value (advance_iter w) = Return r ->
  let w' := after (advance_iter w) in
  _next_output_time w' = r
  /\ _is_exhausted w' = negb (is_Some r)
  /\ model w' = model w
  /\ (exists ys k k', _times_iter w = Iterator ys k
                      /\ _times_iter w' = Iterator ys k' /\ k <= k').
Proof.
  rewrite advance_iter_eq.
  destruct (_times_iter w) as [| |ys k] eqn:Hit; [discriminate..|].
  destruct (_is_exhausted w) eqn:Hex.
  { destruct (_next_output_time w) eqn:Hnext; [discriminate|].
    simpl. intros [= <-]. rewrite Hnext, Hex. simpl.
    repeat split; eauto 10. }
  destruct (negb _); [discriminate|].
  destruct (next_eq_stop _ _).
  { simpl. intros [= <-]. simpl.
    destruct (shift_prev_fields w) as (Hm & _ & _ & Hi & _).
    rewrite Hm, Hi, Hit. repeat split; eauto 10. }
  destruct (shift_prev_fields w) as (Hm & _ & _ & Hi & _ & He & _).
  destruct (resolution_frame 5 (shift_prev w)) as (Fm & _ & _ & _ & Fe & _).
  destruct (resolution_iterator 5 (shift_prev w) ys k) as (k' & Hk' & Hle);
    [congruence|].
  unfold commit. revert Fm Fe Hk'.
  generalize (_advance_iter_recursive 5 (shift_prev w)). intros [[r'|e] a l];
    simpl; [|discriminate].
  intros Fm Fe Hk' [= <-].
  destruct r' as [t|]; simpl; rewrite ?Fm, ?Fe, ?Hm, ?He, ?Hex, ?Hk';
    (split; [reflexivity|]); (split; [reflexivity|]); (split; [reflexivity|]);
    exists ys, k, k'; repeat split; auto; lia.
Qed.

(** A call that returns keeps the invariant, and what it returns is
    beyond the time that was pending. *)
Lemma advance_iter_sound (w : writer) (r : option spec_float) :
  sound w ->
  value (advance_iter w) = Return r ->
  sound (after (advance_iter w))
  /\ forall t0 t, _next_output_time w = Some t0 -> r = Some t ->
                  PyFloat.lt t0 t = true.
Proof.
  intros (Hnan & Hstop & Hfirst & Hprev & Hnext & Hexh).
  rewrite advance_iter_eq.
  destruct (_times_iter w) as [| |ys k] eqn:Hit; [discriminate..|].
  destruct (_is_exhausted w) eqn:Hex.
  { rewrite (Hexh eq_refl). simpl. intros [= <-]. split; [|discriminate].
    unfold sound. rewrite Hit, Hex. tauto. }
  destruct (negb _) eqn:Hle; [discriminate|]. apply negb_false_iff in Hle.
  destruct (shift_prev_fields w)
    as (Sm & Sf & Sl & Si & Sn & Se & _ & Sp).
  destruct (next_eq_stop _ _) eqn:Heq.
  { simpl. intros [= <-]. split; [|discriminate].
    unfold sound, stop_time. simpl. fold (stop_time (shift_prev w)).
    unfold stop_time. rewrite Sm, Sf, Si, Sp, Hit.
    destruct (_next_output_time w) as [t0|] eqn:En; [|discriminate].
    repeat split; try assumption; try discriminate.
    all: try (exfalso;
              match goal with
              | H : _save_first_timestep _ = true |- _ =>
                  destruct (Hfirst H) as (_ & Hn & _); discriminate
              end).
    intros p [= <-]. apply (pyfloat_le_not_nan _ _ Hle). }
  assert (Hprev' : forall p, _prev_output_time (shift_prev w) = Some p ->
                             PyFloat.is_nan p = false).
  { rewrite Sp. destruct (_next_output_time w) as [t0|] eqn:En.
    - intros p [= <-]. apply (pyfloat_le_not_nan _ _ Hle).
    - exact Hprev. }
  assert (Hres : forall t, value (_advance_iter_recursive 5 (shift_prev w))
                           = Return (Some t) ->
           PyFloat.le t (stop_time w) = true
           /\ forall p, _prev_output_time (shift_prev w) = Some p ->
                        PyFloat.lt p t = true).
  { intros t Ht.
    replace (stop_time w) with (stop_time (shift_prev w))
      by (unfold stop_time; rewrite Sm; reflexivity).
    apply (resolution_in_range 5 (shift_prev w) t); try assumption.
    - rewrite Si, Hit. exact Hnan.
    - unfold stop_time. rewrite Sm. exact Hstop.
    - rewrite Sf. intros Hf. destruct (Hfirst Hf) as (Hp & Hn & Hz).
      rewrite Sp, Hn. unfold stop_time. rewrite Sm. auto. }
  destruct (resolution_frame 5 (shift_prev w))
    as (Fm & _ & Fn & Fp & Fe & _).
  destruct (resolution_iterator 5 (shift_prev w) ys k) as (k' & Hk' & _);
    [congruence|].
  pose proof (resolution_first_consumed 5 (shift_prev w)) as Ff.
  unfold commit. revert Hres Fm Fn Fp Fe Hk' Ff.
  generalize (_advance_iter_recursive 5 (shift_prev w)).
  intros [[r'|e] a l]; simpl; [|discriminate].
  intros Hres Fm Fn Fp Fe Hk' Ff [= <-].
  specialize (Ff ltac:(discriminate)).
  split.
  - unfold sound, stop_time.
    destruct r' as [t|]; simpl; rewrite Hk', Fm, Sm, Ff, Fp.
    + destruct (Hres t eq_refl) as [Ht Hpt].
      repeat split; try assumption; try discriminate.
      all: repeat match goal with
                  | H : Some _ = Some _ |- _ => injection H as <-
                  end.
      all: try assumption; try (apply Hpt; assumption).
      rewrite Fe, Se, Hex. discriminate.
    + repeat split; try assumption; try discriminate.
  - intros t0 t Hn ->. destruct (Hres t eq_refl) as [_ Hpt].
    apply Hpt. rewrite Sp, Hn. reflexivity.
Qed.

(** *** Runs *)

Lemma calls_S (n : nat) (w : writer) :
  calls (S n) w =
  advance_iter w
  :: match value (advance_iter w) with
     | Return _ => calls n (after (advance_iter w))
     | Raise _ => []
     end.
Proof. reflexivity. Qed.

Lemma calls_exhausted (n : nat) (w : writer) (ys : nat -> pyvalue) (k : nat) :
  _times_iter w = Iterator ys k -> _is_exhausted w = true ->
  _next_output_time w = None ->
  calls n w = repeat (Outcome (Return None) w []) n.
Proof.
  intros Hit Hex Hnext. induction n as [|n IH]; [reflexivity|].
  rewrite calls_S, (advance_iter_exhausted w ys k Hit Hex Hnext).
  cbn [value after repeat]. rewrite IH. reflexivity.
Qed.

Lemma outputs_repeat_None (n : nat) (w : writer) :
  outputs (repeat (Outcome (Return None) w []) n) = [].
Proof. induction n as [|n IH]; [reflexivity|exact IH]. Qed.

Lemma outputs_cons (o : outcome (option spec_float))
    (tr : list (outcome (option spec_float))) :
  outputs (o :: tr) =
  match output_of o with
  | Some t => t :: outputs tr
  | None => outputs tr
  end.
Proof. reflexivity. Qed.

Lemma calls_sound (n : nat) (w : writer) :
  sound w -> Forall returned (calls n w) ->
  Forall (fun o => sound (after o)) (calls n w)
  /\ StronglySorted (fun a b => PyFloat.lt a b = true) (outputs (calls n w))
  /\ Forall (fun t => forall t0, _next_output_time w = Some t0 ->
                                 PyFloat.lt t0 t = true)
            (outputs (calls n w))
  /\ (_is_exhausted w = true -> outputs (calls n w) = []).
Proof.
  revert w. induction n as [|n IH]; intros w Hw Hret.
  { change (outputs (calls 0 w)) with (@nil spec_float).
    repeat split; constructor. }
  rewrite calls_S in Hret |- *. apply Forall_cons in Hret as [Hr Hret].
  unfold returned in Hr.
  destruct (value (advance_iter w)) as [r|e] eqn:Hv; [|contradiction].
  destruct (advance_iter_sound w r Hw Hv) as [Hw' Hlt].
  destruct (advance_iter_returned w r Hv)
    as (Hn' & He' & _ & ys & k & k' & Hit & Hit' & _).
  destruct (IH _ Hw' Hret) as (IHs & IHo & IHn & IHe).
  assert (Ho : output_of (advance_iter w) = r)
    by (unfold output_of; rewrite Hv; reflexivity).
  rewrite outputs_cons, Ho.
  destruct r as [t|]; cbn [is_Some negb] in *.
  - repeat split.
    + constructor; assumption.
    + constructor; [exact IHo|].
      eapply Forall_impl; [exact IHn|]. intros t' Ht'. apply Ht', Hn'.
    + constructor.
      * intros t0 Ht0. apply (Hlt t0 t Ht0 eq_refl).
      * eapply Forall_impl; [exact IHn|]. intros t' Ht' t0 Ht0.
        apply (pyfloat_lt_trans t0 t t'); [apply (Hlt t0 t Ht0 eq_refl)|].
        apply Ht', Hn'.
    + intros Hex. exfalso.
      destruct Hw as (_ & _ & _ & _ & _ & Hexh).
      rewrite (advance_iter_exhausted w ys k Hit Hex (Hexh Hex)) in Hv.
      discriminate.
  - rewrite (IHe He'). repeat split; try constructor; assumption.
Qed.

Lemma new_writer_sound (m : Model) (sf sl : bool) (ys : nat -> pyvalue) (k : nat) :
  (forall i x, ys i = PyFloat x -> PyFloat.is_nan x = false) ->
  PyFloat.is_nan (stop (clock m)) = false ->
  (sf = true -> PyFloat.le PyFloat.zero (stop (clock m)) = true) ->
  sound (new_writer m sf sl (Iterator ys k)).
Proof.
  intros Hnan Hstop Hzero. unfold sound, new_writer, stop_time. simpl.
  repeat split; try assumption; try discriminate. auto.
Qed.

Lemma sound_next_in_range (w : writer) : sound w -> next_in_range w.
Proof.
  intros (_ & _ & _ & _ & Hnext & _). unfold next_in_range.
  destruct (_next_output_time w) as [t|]; [|exact I].
  destruct (Hnext t eq_refl) as [Hle Hlt]. split; [exact Hle|].
  destruct (_prev_output_time w) as [p|]; [|exact I].
  left. apply Hlt. reflexivity.
Qed.

Lemma sound_next_beyond_prev (w : writer) : sound w -> next_beyond_prev w.
Proof.
  intros (_ & _ & _ & _ & Hnext & _). unfold next_beyond_prev.
  destruct (_next_output_time w) as [t|]; [|exact I].
  destruct (Hnext t eq_refl) as [Hle Hlt]. split; [exact Hle|].
  destruct (_prev_output_time w) as [p|]; [|exact I].
  apply Hlt. reflexivity.
Qed.

Lemma lt_increasing (a b : spec_float) :
  PyFloat.lt a b = true -> increasing a b.
Proof.
  intros H. split; [apply pyfloat_lt_le, H|apply pyfloat_lt_not_eq, H].
Qed.

Lemma no_nan_iter (l : list pyvalue) :
  no_nan_in l = true ->
  forall i x, nth i l PyNone = PyFloat x -> PyFloat.is_nan x = false.
Proof.
  unfold no_nan_in. rewrite forallb_forall. intros Hl i x Hi.
  destruct (Nat.lt_ge_cases i (length l)) as [Hlt|Hge].
  - specialize (Hl (nth i l PyNone) (nth_In l PyNone Hlt)).
    rewrite Hi in Hl. apply negb_true_iff, Hl.
  - rewrite nth_overflow in Hi by exact Hge. discriminate.
Qed.

(** *** [advance_iter] past skipped values *)

Lemma advance_iter_skips (w : writer) (j : nat) (v : pyvalue) :
  resolving w -> _save_first_timestep w = false -> j <= 5 ->
  skips_then (shift_prev w) j v ->
  exists ys k,
    _times_iter w = Iterator ys k
    /\ ys (k + j) = v
    /\ advance_iter w =
       commit
         (after_warnings
            (warnings_of_skips (_prev_output_time (shift_prev w)) ys k j)
            (_advance_iter_recursive (5 - j)
               (set_times_iter (Iterator ys (k + j)) (shift_prev w)))).
Proof.
  intros Hres Hfirst Hj (ys & k & Hit & Hskip & Hv).
  destruct (shift_prev_fields w) as (_ & Sf & _ & Si & _).
  exists ys, k. split; [congruence|]. split; [exact Hv|].
  rewrite (advance_iter_resolving w ys k) by congruence.
  replace 5 with (j + (5 - j)) at 1 by lia.
  rewrite (resolution_skips j (5 - j) (shift_prev w) ys k);
    [reflexivity|congruence|exact Hit|exact Hskip].
Qed.

Lemma stop_or_None_due (w : writer) :
  final_output_due w ->
  stop_or_None (_save_last_timestep w) (_prev_output_time w) (stop_time w)
  = Some (stop_time w).
Proof.
  intros [Hsl Hprev]. unfold stop_or_None. rewrite Hsl.
  destruct Hprev as [->|(p & -> & Hlt)]; simpl; [reflexivity|].
  rewrite Hlt. reflexivity.
Qed.

Lemma stop_or_None_not_due (w : writer) :
  ~ final_output_due w ->
  stop_or_None (_save_last_timestep w) (_prev_output_time w) (stop_time w)
  = None.
Proof.
  intros Hnot. unfold stop_or_None.
  destruct (_save_last_timestep w) eqn:Hsl; [|reflexivity].
  destruct (_prev_output_time w) as [p|] eqn:Hp; simpl.
  - destruct (PyFloat.lt p (stop_time w)) eqn:Hlt; [|reflexivity].
    exfalso. apply Hnot. split; [exact Hsl|]. right. eauto.
  - exfalso. apply Hnot. split; [exact Hsl|]. left. exact Hp.
Qed.

(** The resolution that ends on an exhausted iterator or on a time
    past the stop time, seen from [advance_iter]. *)
Lemma advance_iter_ends (w : writer) (j : nat) (v : pyvalue) :
  resolving w -> _save_first_timestep w = false -> j <= 5 ->
  skips_then (shift_prev w) j v ->
  (v = PyNone
   \/ exists t, v = PyFloat t /\ PyFloat.gt t (stop_time w) = true) ->
  value (advance_iter w)
  = Return (stop_or_None (_save_last_timestep (shift_prev w))
              (_prev_output_time (shift_prev w)) (stop_time (shift_prev w))).
Proof.
  intros Hres Hfirst Hj Hskips Hv.
  destruct (advance_iter_skips w j v Hres Hfirst Hj Hskips)
    as (ys & k & Hit & Hyk & ->).
  destruct (shift_prev_fields w) as (Sm & Sf & _).
  assert (Hend : _advance_iter_recursive (5 - j)
                   (set_times_iter (Iterator ys (k + j)) (shift_prev w))
                 = Outcome
                     (Return (stop_or_None (_save_last_timestep (shift_prev w))
                                (_prev_output_time (shift_prev w))
                                (stop_time (shift_prev w))))
                     (set_times_iter (Iterator ys (S (k + j)))
                        (set_times_iter (Iterator ys (k + j)) (shift_prev w)))
                     []).
  { destruct Hv as [Hv|(t & Hv & Hgt)]; rewrite Hv in Hyk.
    - rewrite (resolution_exhausted (5 - j)
                 (set_times_iter (Iterator ys (k + j)) (shift_prev w))
                 ys (k + j));
        [reflexivity|simpl; congruence|reflexivity|exact Hyk].
    - rewrite (resolution_overshoot (5 - j)
                 (set_times_iter (Iterator ys (k + j)) (shift_prev w))
                 ys (k + j)) with (t := t);
        [reflexivity|simpl; congruence|reflexivity|exact Hyk|].
      unfold stop_time in *. simpl. rewrite Sm. exact Hgt. }
  rewrite Hend. unfold commit, after_warnings. simpl. reflexivity.
Qed.

(* ===================================================================== *)
(** ** The properties of the scheduler and of the registry *)
(* ===================================================================== *)

(** C5.  With [save_first_timestep] set, the first [advance_iter] of a
    writer whose times iterator is registered returns exactly [0.0],
    whatever the iterator holds, and does not pull from the iterator:
    it is left as it was registered.  The flag is consumed. *)
Theorem first_timestep_at_zero
    (m : Model) (save_last : bool) (ys : nat -> pyvalue) (k : nat) :
  let o := advance_iter (new_writer m true save_last (Iterator ys k)) in
  value o = Return (Some PyFloat.zero)
  /\ _times_iter (after o) = Iterator ys k
  /\ warned o = []
  /\ _next_output_time (after o) = Some PyFloat.zero
  /\ _save_first_timestep (after o) = false.
Proof. repeat split; reflexivity. Qed.

(** C6.  The iterator [1.0, 2.0, 1.5, 5.0] with stop time [10.0] and
    neither first nor last time step forced: the calls return 1.0, 2.0,
    5.0 and then [None]; the out-of-order 1.5 is skipped during the
    third call, with one warning of the category
    [OutputIteratorSkipWarning] whose message carries 1.5 and 2.0. *)
Theorem skip_tolerance :
  let tr := calls 5 (new_writer (model_stopping_at (PyFloat.lit 10.0))
                       false false (iter out_of_order)) in
  map value tr
  = [Return (Some (PyFloat.lit 1.0)); Return (Some (PyFloat.lit 2.0));
     Return (Some (PyFloat.lit 5.0)); Return None; Return None]
  /\ outputs tr = [PyFloat.lit 1.0; PyFloat.lit 2.0; PyFloat.lit 5.0]
  /\ map warned tr
     = [[]; [];
        [Warning (get_message (PyFloat.lit 1.5) (PyFloat.lit 2.0))
           OutputIteratorSkipWarning];
        []; []]
  /\ In (Num (PyFloat.lit 1.5))
        (get_message (PyFloat.lit 1.5) (PyFloat.lit 2.0))
  /\ In (Num (PyFloat.lit 2.0))
        (get_message (PyFloat.lit 1.5) (PyFloat.lit 2.0)).
Proof.
  cbv zeta. repeat split; try (vm_compute; reflexivity).
  - right. left. reflexivity.
  - do 4 right. left. reflexivity.
Qed.

(** C7.  Once [advance_iter] has returned [None], the writer is
    exhausted, and every later call returns [None] at once: no warning,
    no exception, and the writer it leaves is the writer it found (the
    iterator is not pulled, no attribute changes). *)
Theorem exhaustion_idempotent (w : writer) :
  value (advance_iter w) = Return None ->
  let w' := after (advance_iter w) in
  _is_exhausted w' = true
  /\ _next_output_time w' = None
  /\ advance_iter w' = Outcome (Return None) w' []
  /\ forall n, calls n w' = repeat (Outcome (Return None) w' []) n.
Proof.
  intros Hv.
  destruct (advance_iter_returned w None Hv)
    as (Hn & He & _ & ys & k & k' & _ & Hit' & _).
  cbv zeta. repeat split; try assumption.
  - apply (advance_iter_exhausted _ ys k'); assumption.
  - intros n. apply (calls_exhausted n _ ys k'); assumption.
Qed.

Lemma exhaustion_idempotent_witness :
  let w := new_writer (model_stopping_at (PyFloat.lit 10.0)) false false
             (iter overshoot) in
  value (advance_iter w) = Return None
  /\ advance_iter (after (advance_iter w))
     = Outcome (Return None) (after (advance_iter w)) [].
Proof.
  cbv zeta. split; [vm_compute; reflexivity|].
  apply (exhaustion_idempotent
           (new_writer (model_stopping_at (PyFloat.lit 10.0)) false false
              (iter overshoot))).
  vm_compute. reflexivity.
Defined.

(** C4.  If [advance_iter] returns a time equal to the stop time (pulled
    from the iterator or forced), the next call returns [None] without
    pulling from the iterator, and exhausts the writer: no later call
    hands out any time, so the stop time is handed out once. *)
Theorem no_double_stop_time (w : writer) (t : spec_float) :
  value (advance_iter w) = Return (Some t) ->
  PyFloat.eq t (stop_time w) = true ->
  let w1 := after (advance_iter w) in
  let o2 := advance_iter w1 in
  value o2 = Return None
  /\ warned o2 = []
  /\ _times_iter (after o2) = _times_iter w1
  /\ _is_exhausted (after o2) = true
  /\ forall n, outputs (calls n w1) = [].
Proof.
  intros Hv Heq.
  destruct (advance_iter_returned w (Some t) Hv)
    as (Hn & He & Hm & ys & k & k' & _ & Hit' & _).
  cbv zeta. set (w1 := after (advance_iter w)) in *.
  assert (Ho2 : advance_iter w1
                = Outcome (Return None)
                    (set_next_output_time None
                       (set_is_exhausted true (shift_prev w1))) []).
  { rewrite advance_iter_eq, Hit', He, Hn. simpl.
    unfold stop_time. rewrite Hm. fold (stop_time w).
    rewrite (pyfloat_eq_le _ _ Heq), Heq. reflexivity. }
  destruct (shift_prev_fields w1) as (_ & _ & _ & Si & _).
  rewrite Ho2. simpl. repeat split; try assumption.
  intros [|n]; [reflexivity|].
  rewrite calls_S, Ho2, outputs_cons. simpl.
  rewrite (calls_exhausted n _ ys k'); [apply outputs_repeat_None|..].
  - simpl. rewrite Si. exact Hit'.
  - reflexivity.
  - reflexivity.
Qed.

Lemma no_double_stop_time_witness :
  let w := new_writer (model_stopping_at (PyFloat.lit 10.0)) false true
             (iter [F 10.0; F 3.0]) in
  value (advance_iter w) = Return (Some (PyFloat.lit 10.0))
  /\ value (advance_iter (after (advance_iter w))) = Return None
  /\ _times_iter (after (advance_iter (after (advance_iter w))))
     = _times_iter (after (advance_iter w)).
Proof.
  cbv zeta.
  pose proof (no_double_stop_time
                (new_writer (model_stopping_at (PyFloat.lit 10.0)) false true
                   (iter [F 10.0; F 3.0]))
                (PyFloat.lit 10.0)) as H.
  split; [vm_compute; reflexivity|].
  destruct H as (H1 & _ & H3 & _); [vm_compute; reflexivity..|].
  split; assumption.
Defined.

(** C9.  [is_file_registered] is the membership test of the registry.
    [register_output_filepath] appends a path that is not registered to
    the end of the registry, and leaves the writer as it is when the
    path is registered; hence registering the same string once more
    changes nothing, and the path is registered afterwards.  The method
    raises nothing and warns of nothing. *)
Theorem register_output_filepath_dedup (filepath : string) (w : writer) :
  let o := register_output_filepath filepath w in
  is_file_registered filepath w
  = Outcome (Return (bool_decide (filepath ∈ _output_filepaths w))) w []
  /\ value o = Return tt
  /\ warned o = []
  /\ (filepath ∉ _output_filepaths w ->
      after o = set_output_filepaths (_output_filepaths w ++ [filepath]) w)
  /\ (filepath ∈ _output_filepaths w -> after o = w)
  /\ register_output_filepath filepath (after o)
     = Outcome (Return tt) (after o) []
  /\ value (is_file_registered filepath (after o)) = Return true.
Proof.
  destruct w as [m sf sl it nx pv ex fp]. cbv zeta.
  unfold register_output_filepath, is_file_registered, bind, read, ret,
    assign, set_output_filepaths. simpl.
  destruct (bool_decide (filepath ∈ fp)) eqn:Hreg; simpl.
  - apply bool_decide_eq_true in Hreg.
    rewrite (bool_decide_eq_true_2 _ Hreg). simpl.
    repeat split; try reflexivity. intros Hnot. contradiction.
  - apply bool_decide_eq_false in Hreg.
    assert (Hin : filepath ∈ fp ++ [filepath])
      by (apply elem_of_app; right; apply list_elem_of_singleton; reflexivity).
    rewrite (bool_decide_eq_true_2 _ Hin). simpl.
    repeat split; try reflexivity. intros Hyes. contradiction.
Qed.

Lemma register_output_filepath_dedup_witness :
  let w := new_writer (model_stopping_at (PyFloat.lit 10.0)) false true
             (iter overshoot) in
  let o := register_output_filepath "out/a.nc" w in
  _output_filepaths (after o) = ["out/a.nc"]
  /\ _output_filepaths (after (register_output_filepath "out/a.nc" (after o)))
     = ["out/a.nc"].
Proof.
  cbv zeta.
  destruct (register_output_filepath_dedup "out/a.nc"
              (new_writer (model_stopping_at (PyFloat.lit 10.0)) false true
                 (iter overshoot)))
    as (_ & _ & _ & _ & _ & Hagain & _).
  split; [vm_compute; reflexivity|].
  rewrite Hagain. vm_compute. reflexivity.
Defined.

Lemma advance_iter_not_float (w : writer) (j : nat) :
  resolving w -> _save_first_timestep w = false -> j <= 5 ->
  skips_then (shift_prev w) j PyOther ->
  value (advance_iter w) = Raise AssertionError.
Proof.
  intros Hres Hfirst Hj Hskips.
  destruct (advance_iter_skips w j PyOther Hres Hfirst Hj Hskips)
    as (ys & k & Hit & Hyk & ->).
  destruct (shift_prev_fields w) as (_ & Sf & _).
  rewrite (resolution_not_float (5 - j)
             (set_times_iter (Iterator ys (k + j)) (shift_prev w))
             ys (k + j));
    [reflexivity|simpl; congruence|reflexivity|exact Hyk].
Qed.

Lemma advance_iter_no_retry_left (w : writer) (v : pyvalue) :
  resolving w -> _save_first_timestep w = false ->
  skips_then (shift_prev w) 5 v -> skipped (shift_prev w) v = true ->
  value (advance_iter w) = Raise RecursionError.
Proof.
  intros Hres Hfirst Hskips Hv.
  destruct (advance_iter_skips w 5 v Hres Hfirst (le_n 5) Hskips)
    as (ys & k & Hit & Hyk & ->).
  destruct (shift_prev_fields w) as (_ & Sf & _).
  rewrite (resolution_no_retry_left (5 - 5)
             (set_times_iter (Iterator ys (k + 5)) (shift_prev w))
             ys (k + 5));
    [reflexivity|simpl; congruence|reflexivity|reflexivity|].
  rewrite Hyk. exact Hv.
Qed.



(** C3.  When the resolution, after at most five skipped values, finds
    the iterator exhausted or pulls a time greater than the stop time,
    [advance_iter] returns the stop time itself if [save_last_timestep]
    is set and the previous output time (as the resolution reads it:
    the time that was pending, if any) is [None] or less than the stop
    time; otherwise it returns [None] and the writer is exhausted.  In
    particular the iterator [100.0] with stop time [10.0] gives [10.0]
    and then [None] with [save_last_timestep], and [None] at once
    without it. *)
Theorem forced_final_output :
  (forall (w : writer) (j : nat) (v : pyvalue),
      resolving w -> _save_first_timestep w = false -> j <= 5 ->
      skips_then (shift_prev w) j v ->
      (v = PyNone
       \/ exists t, v = PyFloat t /\ PyFloat.gt t (stop_time w) = true) ->
      let o := advance_iter w in
      (final_output_due (shift_prev w) ->
       value o = Return (Some (stop_time w))
       /\ _next_output_time (after o) = Some (stop_time w)
       /\ _is_exhausted (after o) = false)
      /\ (~ final_output_due (shift_prev w) ->
          value o = Return None
          /\ _next_output_time (after o) = None
          /\ _is_exhausted (after o) = true))
  /\ (let tr := calls 3 (new_writer (model_stopping_at (PyFloat.lit 10.0))
                           false true (iter overshoot)) in
      map value tr
      = [Return (Some (PyFloat.lit 10.0)); Return None; Return None]
      /\ Forall (fun o => _is_exhausted (after o) = true) (tail tr))
  /\ (let tr := calls 2 (new_writer (model_stopping_at (PyFloat.lit 10.0))
                           false false (iter overshoot)) in
      map value tr = [Return None; Return None]
      /\ Forall (fun o => _is_exhausted (after o) = true) tr).
Proof.
  split; [|split].
  - intros w j v Hres Hfirst Hj Hskips Hv. cbv zeta.
    pose proof (advance_iter_ends w j v Hres Hfirst Hj Hskips Hv) as Hend.
    assert (Hstop : stop_time (shift_prev w) = stop_time w).
    { unfold stop_time. destruct (shift_prev_fields w) as (-> & _).
      reflexivity. }
    split; intros Hdue.
    + rewrite (stop_or_None_due _ Hdue), Hstop in Hend.
      destruct (advance_iter_returned w _ Hend) as (Hn & He & _).
      auto.
    + rewrite (stop_or_None_not_due _ Hdue) in Hend.
      destruct (advance_iter_returned w _ Hend) as (Hn & He & _).
      auto.
  - cbv zeta. split; [vm_compute; reflexivity|].
    vm_compute. repeat constructor.
  - cbv zeta. split; [vm_compute; reflexivity|].
    vm_compute. repeat constructor.
Qed.

Lemma forced_final_output_witness :
  let w := new_writer (model_stopping_at (PyFloat.lit 10.0)) false true
             (iter overshoot) in
  final_output_due (shift_prev w)
  /\ value (advance_iter w) = Return (Some (PyFloat.lit 10.0)).
Proof.
  cbv zeta.
  assert (Hdue : final_output_due
                   (shift_prev
                      (new_writer (model_stopping_at (PyFloat.lit 10.0))
                         false true (iter overshoot))))
    by (split; [reflexivity|left; reflexivity]).
  split; [exact Hdue|].
  apply (proj1 forced_final_output
           (new_writer (model_stopping_at (PyFloat.lit 10.0)) false true
              (iter overshoot))
           0 (F 100.0)).
  - repeat split; reflexivity.
  - reflexivity.
  - lia.
  - exists (fun k => nth k overshoot PyNone), 0.
    split; [reflexivity|]. split; [intros i Hi; lia|reflexivity].
  - right. exists (PyFloat.lit 100.0). split; [reflexivity|].
    vm_compute. reflexivity.
  - exact Hdue.
Defined.

(** *** Floats below the stop time, and zero *)

Lemma pyfloat_lt_not_ge (a b : spec_float) :
  PyFloat.lt a b = true -> PyFloat.ge a b = false.
Proof.
  unfold PyFloat.lt, PyFloat.ge, SFltb, SFleb. rewrite (SFcompare_swap a b).
  destruct (SFcompare a b) as [[]|]; simpl; congruence.
Qed.

(** A time that the previous time has reached is not past a stop time
    that the previous time is before. *)
Lemma pyfloat_reached_not_gt (p x s : spec_float) :
  PyFloat.lt p s = true -> PyFloat.ge p x = true -> PyFloat.gt x s = false.
Proof.
  intros Hps Hpx. destruct (PyFloat.gt x s) eqn:Hgt; [|reflexivity].
  pose proof (pyfloat_lt_trans p s x Hps Hgt) as Hlt.
  apply pyfloat_lt_not_ge in Hlt. congruence.
Qed.

Lemma pyfloat_eq_zero (z : spec_float) :
  PyFloat.eq z PyFloat.zero = true -> exists b, z = S754_zero b.
Proof.
  destruct z as [b|b| |b m e];
    [eauto|destruct b; discriminate|discriminate|destruct b; discriminate].
Qed.

Lemma skip_warnings_zero (z : spec_float) :
  PyFloat.eq z PyFloat.zero = true ->
  skip_warnings (Some PyFloat.zero) z = [].
Proof. intros Hz. unfold skip_warnings. rewrite Hz. reflexivity. Qed.

(** The warnings of a call whose resolution runs out of retries. *)
Lemma advance_iter_no_retry_left_warned
    (w : writer) (ys : nat -> pyvalue) (k : nat) :
  resolving w -> _save_first_timestep w = false ->
  _times_iter w = Iterator ys k ->
  (forall i, i < 6 -> skipped (shift_prev w) (ys (k + i)) = true) ->
  value (advance_iter w) = Raise RecursionError
  /\ warned (advance_iter w)
     = warnings_of_skips (_prev_output_time (shift_prev w)) ys k 5.
Proof.
  intros Hres Hfirst Hit Hskip.
  destruct (shift_prev_fields w) as (_ & Sf & _ & Si & _).
  assert (Hskips : skips_then (shift_prev w) 5 (ys (k + 5))).
  { exists ys, k. split; [congruence|]. split; [|reflexivity].
    intros i Hi. apply Hskip. lia. }
  destruct (advance_iter_skips w 5 _ Hres Hfirst (le_n 5) Hskips)
    as (ys' & k' & Hit' & _ & ->).
  assert (ys' = ys /\ k' = k) as [-> ->] by (split; congruence).
  rewrite (resolution_no_retry_left (5 - 5)
             (set_times_iter (Iterator ys (k + 5)) (shift_prev w))
             ys (k + 5));
    [|simpl; congruence|reflexivity|reflexivity|apply Hskip; lia].
  unfold commit, after_warnings. simpl. rewrite app_nil_r. auto.
Qed.

Lemma skipped_float (w : writer) (p x : spec_float) :
  _prev_output_time w = Some p ->
  PyFloat.lt p (stop_time w) = true -> PyFloat.ge p x = true ->
  skipped w (PyFloat x) = true.
Proof.
  intros Hp Hps Hpx. unfold skipped.
  rewrite (pyfloat_reached_not_gt p x _ Hps Hpx), Hp. exact Hpx.
Qed.

(** The first call on the list of the example: 1.0 is handed out. *)
Lemma regressions_first (l : list pyvalue) (s : spec_float) (sl : bool) :
  PyFloat.lt (PyFloat.lit 1.0) s = true ->
  advance_iter (new_writer (model_stopping_at s) false sl (iter (F 1.0 :: l)))
  = Outcome (Return (Some (PyFloat.lit 1.0)))
      (MkWriter (model_stopping_at s) false sl
         (Iterator (fun k => nth k (F 1.0 :: l) PyNone) 1)
         (Some (PyFloat.lit 1.0)) None false [])
      [].
Proof.
  intros Hs.
  rewrite (advance_iter_resolving _ (fun k => nth k (F 1.0 :: l) PyNone) 0);
    [|reflexivity|repeat split; reflexivity].
  rewrite (resolution_valid 5 _ (fun k => nth k (F 1.0 :: l) PyNone) 0)
    with (t := PyFloat.lit 1.0);
    [reflexivity|reflexivity|reflexivity|reflexivity| |reflexivity].
  apply pyfloat_lt_not_gt. exact Hs.
Qed.

(** C1, as the code has it.  The iterator
    [1.0, 0.9, 0.8, 0.7, 0.6, 0.5, 0.4] (six times in a row that do not
    exceed the accepted 1.0), [save_first_timestep] unset and a stop
    time after 1.0: the first call returns 1.0 and the second raises
    [RecursionError], after the five warnings of the five skips that
    the budget allows.  It is the sixth skip in a row that is fatal. *)
Theorem six_regressions_abort (s : spec_float) (save_last : bool) :
  PyFloat.lt (PyFloat.lit 1.0) s = true ->
  let o1 := advance_iter (new_writer (model_stopping_at s) false save_last
                            (iter regressions6)) in
  let o2 := advance_iter (after o1) in
  value o1 = Return (Some (PyFloat.lit 1.0))
  /\ value o2 = Raise RecursionError
  /\ length (warned o2) = 5.
Proof.
  intros Hs. cbv zeta. unfold regressions6.
  rewrite (regressions_first _ s save_last Hs). cbn [value after].
  split; [reflexivity|].
  match goal with
  | |- context [advance_iter ?w1] =>
      destruct (advance_iter_no_retry_left_warned w1
                  (fun k => nth k regressions6 PyNone) 1) as [Hv Hw]
  end.
  - repeat split.
    + apply (pyfloat_lt_le _ _ Hs).
    + apply (pyfloat_lt_not_eq _ _ Hs).
  - reflexivity.
  - reflexivity.
  - intros i Hi.
    do 6 (destruct i as [|i];
          [apply (skipped_float _ (PyFloat.lit 1.0));
             [reflexivity|exact Hs|vm_compute; reflexivity]|]).
    lia.
  - split; [exact Hv|]. rewrite Hw. reflexivity.
Qed.

Lemma six_regressions_abort_witness :
  PyFloat.lt (PyFloat.lit 1.0) (PyFloat.lit 10.0) = true
  /\ value (advance_iter
              (after (advance_iter
                        (new_writer (model_stopping_at (PyFloat.lit 10.0))
                           false true (iter regressions6)))))
     = Raise RecursionError.
Proof.
  split; [vm_compute; reflexivity|].
  apply (six_regressions_abort (PyFloat.lit 10.0) true).
  vm_compute. reflexivity.
Defined.

(** C1 as stated fails: with the five regressions
    [1.0, 0.9, 0.8, 0.7, 0.6, 0.5] the second call skips all five
    (five warnings) and its sixth pull finds the iterator exhausted, so
    it returns the stop time ([save_last_timestep] set) or [None]
    (unset).  No exception is raised. *)
Lemma five_regressions_no_abort :
  let run sl := calls 2 (new_writer (model_stopping_at (PyFloat.lit 10.0))
                           false sl (iter regressions5)) in
  map value (run true)
  = [Return (Some (PyFloat.lit 1.0)); Return (Some (PyFloat.lit 10.0))]
  /\ map value (run false) = [Return (Some (PyFloat.lit 1.0)); Return None]
  /\ map (fun o => length (warned o)) (run true) = [0; 5].
Proof. cbv zeta. repeat split; vm_compute; reflexivity. Qed.

(** *** After the first time step *)

(** A time that a previous time not below zero has not reached is not
    zero, and is not below zero either unless it is NaN. *)
Lemma pyfloat_beyond_nonneg (p x : spec_float) :
  PyFloat.le PyFloat.zero p = true -> PyFloat.ge p x = false ->
  PyFloat.eq x PyFloat.zero = false
  /\ (PyFloat.le PyFloat.zero x = true \/ PyFloat.is_nan x = true).
Proof.
  destruct p as [[]|[]| |[] mp ep], x as [[]|[]| |[] mx ex];
    cbv; intros Hp Hx; try discriminate; auto.
Qed.

Lemma pyfloat_after_zero (s : spec_float) :
  PyFloat.lt PyFloat.zero s = true ->
  PyFloat.eq s PyFloat.zero = false
  /\ (PyFloat.le PyFloat.zero s = true \/ PyFloat.is_nan s = true).
Proof.
  destruct s as [[]|[]| |[] ms es]; cbv; intros Hs; try discriminate; auto.
Qed.

(** Once an output was made at a time not below zero, no time the
    resolution hands out is zero, if the stop time is after zero. *)
Lemma resolution_beyond_zero (n : nat) (w : writer) (p x : spec_float) :
  _save_first_timestep w = false ->
  _prev_output_time w = Some p ->
  PyFloat.le PyFloat.zero p = true ->
  PyFloat.lt PyFloat.zero (stop_time w) = true ->
  value (_advance_iter_recursive n w) = Return (Some x) ->
  PyFloat.eq x PyFloat.zero = false
  /\ (PyFloat.le PyFloat.zero x = true \/ PyFloat.is_nan x = true).
Proof.
  revert w. induction n as [|n IH]; intros w Hf Hp Hz Hs;
    rewrite _advance_iter_recursive_eq, Hf.
  all: destruct (_times_iter w) as [| |ys k]; [discriminate..|].
  all: assert (Hfinal : forall u,
         stop_or_None (_save_last_timestep w) (_prev_output_time w)
           (stop_time w) = Some u ->
         PyFloat.eq u PyFloat.zero = false
         /\ (PyFloat.le PyFloat.zero u = true \/ PyFloat.is_nan u = true))
    by (intros u (-> & _)%stop_or_None_Some; apply pyfloat_after_zero, Hs).
  all: cbv zeta; destruct (ys k) as [|t|];
    [ simpl; intros [= Hu]; apply Hfinal, Hu | | discriminate ].
  all: destruct (PyFloat.gt t (stop_time w));
    [ simpl; intros [= Hu]; apply Hfinal, Hu | ].
  all: destruct (not_None_and_ge (_prev_output_time w) t) eqn:Ege.
  all: try discriminate.
  - simpl. intros [= <-]. rewrite Hp in Ege.
    apply (pyfloat_beyond_nonneg p t Hz Ege).
  - unfold after_warnings. cbn [value]. intros Hv.
    apply (IH (set_times_iter (Iterator ys (S k)) w));
      [ exact Hf | exact Hp | exact Hz | exact Hs | exact Hv ].
  - simpl. intros [= <-]. rewrite Hp in Ege.
    apply (pyfloat_beyond_nonneg p t Hz Ege).
Qed.

(** A call after the first time step hands out no zero. *)
Lemma advance_iter_beyond_zero (w : writer) (r : option spec_float) :
  past_zero w ->
  PyFloat.lt PyFloat.zero (stop_time w) = true ->
  value (advance_iter w) = Return r ->
  _save_first_timestep (after (advance_iter w)) = false
  /\ forall x, r = Some x ->
       PyFloat.eq x PyFloat.zero = false
       /\ (PyFloat.le PyFloat.zero x = true \/ PyFloat.is_nan x = true).
Proof.
  intros [Hf Hn] Hs. rewrite advance_iter_eq.
  destruct (shift_prev_fields w) as (Sm & Sf & _ & _ & _ & _ & _ & Sp).
  destruct (_times_iter w) as [| |ys k]; [discriminate..|].
  destruct (_is_exhausted w) eqn:Hex.
  { destruct (_next_output_time w); [discriminate|].
    simpl. intros [= <-]. split; [exact Hf|discriminate]. }
  destruct Hn as [Hn|(t & Hn & Ht)]; [discriminate|].
  rewrite Hn in Sp |- *. cbn [next_le_stop next_eq_stop].
  destruct (PyFloat.le t (stop_time w)) eqn:Hle; [|discriminate].
  cbn [negb].
  destruct (PyFloat.eq t (stop_time w)).
  { simpl. intros [= <-]. split; [congruence|discriminate]. }
  assert (Hz : PyFloat.le PyFloat.zero t = true).
  { destruct Ht as [Ht|Ht]; [exact Ht|].
    destruct (pyfloat_le_not_nan _ _ Hle). congruence. }
  pose proof (resolution_first_consumed 5 (shift_prev w)) as Ff.
  assert (Hb : forall x,
             value (_advance_iter_recursive 5 (shift_prev w))
             = Return (Some x) ->
             PyFloat.eq x PyFloat.zero = false
             /\ (PyFloat.le PyFloat.zero x = true
                 \/ PyFloat.is_nan x = true)).
  { intros x. apply (resolution_beyond_zero 5 (shift_prev w) t);
      [congruence|exact Sp|exact Hz|].
    unfold stop_time in *. rewrite Sm. exact Hs. }
  unfold commit. revert Ff Hb.
  generalize (_advance_iter_recursive 5 (shift_prev w)).
  intros [[r'|e] a l]; simpl; [|discriminate].
  intros Ff Hb [= <-]. split.
  - destruct r'; simpl; apply Ff; discriminate.
  - intros x ->. apply Hb. reflexivity.
Qed.

(** A call after the first time step leaves a writer after the first
    time step. *)
Lemma advance_iter_past_zero (w : writer) (r : option spec_float) :
  past_zero w ->
  PyFloat.lt PyFloat.zero (stop_time w) = true ->
  value (advance_iter w) = Return r ->
  past_zero (after (advance_iter w))
  /\ stop_time (after (advance_iter w)) = stop_time w
  /\ forall x, r = Some x -> PyFloat.eq x PyFloat.zero = false.
Proof.
  intros Hw Hs Hv.
  destruct (advance_iter_returned w r Hv) as (Hn' & He' & Hm' & _).
  destruct (advance_iter_beyond_zero w r Hw Hs Hv) as [Hf' Hx].
  split; [|split].
  - split; [exact Hf'|].
    destruct r as [x|].
    + right. exists x. split; [exact Hn'|]. apply (Hx x eq_refl).
    + left. rewrite He'. reflexivity.
  - unfold stop_time. rewrite Hm'. reflexivity.
  - intros x Hr. apply (Hx x Hr).
Qed.

(** No run after the first time step hands out a zero. *)
Lemma calls_past_zero (n : nat) (w : writer) :
  past_zero w ->
  PyFloat.lt PyFloat.zero (stop_time w) = true ->
  none_zero (outputs (calls n w)).
Proof.
  revert w. induction n as [|n IH]; intros w Hw Hs; [constructor|].
  rewrite calls_S, outputs_cons. unfold output_of.
  destruct (value (advance_iter w)) as [r|e] eqn:Hv; [|constructor].
  destruct (advance_iter_past_zero w r Hw Hs Hv) as (Hw' & Hs' & Hx).
  assert (Hrest : none_zero (outputs (calls n (after (advance_iter w)))))
    by (apply IH; [exact Hw'|rewrite Hs'; exact Hs]).
  destruct r as [x|]; [|exact Hrest].
  constructor; [apply (Hx x eq_refl)|exact Hrest].
Qed.

(** C10, as the code has it.  With [save_first_timestep] set, a first
    value of the iterator equal to zero and a stop time after zero: the
    first call returns 0.0 from the flag and leaves the iterator alone;
    the second call pulls the zero of the iterator, skips it without
    any warning, and goes on from the next value of the iterator with
    the four retries that are left: its result and its warnings are
    those of that resolution.  So a next value [t] with [0 < t], not
    past the stop time, is returned with no warning at all.  And 0.0 is
    handed out exactly once: in every run of one call or more, whatever
    the iterator gives after its zero, the times handed out are 0.0 and
    then the times of the calls that follow, none of which is zero. *)
Theorem zero_after_first_timestep
    (m : Model) (save_last : bool) (ys : nat -> pyvalue) (k : nat)
    (z : spec_float) :
  ys k = PyFloat z ->
  PyFloat.eq z PyFloat.zero = true ->
  PyFloat.lt PyFloat.zero (stop (clock m)) = true ->
  let o1 := advance_iter (new_writer m true save_last (Iterator ys k)) in
  let o2 := advance_iter (after o1) in
  let rest := _advance_iter_recursive 4
                (set_times_iter (Iterator ys (S k)) (shift_prev (after o1))) in
  (value o1 = Return (Some PyFloat.zero)
   /\ _times_iter (after o1) = Iterator ys k)
  /\ (o2 = commit rest /\ value o2 = value rest /\ warned o2 = warned rest)
  /\ (forall t, ys (S k) = PyFloat t ->
                PyFloat.lt PyFloat.zero t = true ->
                PyFloat.gt t (stop (clock m)) = false ->
                value o2 = Return (Some t) /\ warned o2 = []
                /\ _times_iter (after o2) = Iterator ys (S (S k)))
  /\ (forall n,
        outputs (calls (S n) (new_writer m true save_last (Iterator ys k)))
        = PyFloat.zero :: outputs (calls n (after o1))
        /\ none_zero (outputs (calls n (after o1)))).
Proof.
  intros Hyk Hz Hstop. cbv zeta.
  set (w1 := MkWriter m false save_last (Iterator ys k)
               (Some PyFloat.zero) None false []).
  change (after (advance_iter (new_writer m true save_last (Iterator ys k))))
    with w1.
  split; [split; reflexivity|].
  assert (Hres : resolving w1).
  { repeat split.
    - apply (pyfloat_lt_le _ _ Hstop).
    - apply (pyfloat_lt_not_eq _ _ Hstop). }
  assert (Hskip : skips_then (shift_prev w1) 1 (ys (S k))).
  { exists ys, k. split; [reflexivity|]. split.
    - intros i Hi. replace i with 0 by lia. rewrite Nat.add_0_r, Hyk.
      apply (skipped_float _ PyFloat.zero); [reflexivity|exact Hstop|].
      apply (pyfloat_eq_le _ _ Hz).
    - rewrite Nat.add_1_r. reflexivity. }
  destruct (advance_iter_skips w1 1 _ Hres eq_refl ltac:(lia) Hskip)
    as (ys' & k' & Hit' & _ & Ho2).
  assert (ys' = ys /\ k' = k) as [-> ->]
    by (split; unfold w1 in Hit'; simpl in Hit'; congruence).
  assert (Hws : warnings_of_skips (_prev_output_time (shift_prev w1)) ys k 1
                = []).
  { cbn [warnings_of_skips]. rewrite Hyk, app_nil_r.
    apply skip_warnings_zero, Hz. }
  rewrite Hws, Nat.add_1_r in Ho2.
  change (5 - 1) with 4 in Ho2.
  assert (Hcommit : advance_iter w1
                    = commit (_advance_iter_recursive 4
                                (set_times_iter (Iterator ys (S k))
                                   (shift_prev w1)))).
  { rewrite Ho2. unfold after_warnings. rewrite <- outcome_eta. reflexivity. }
  split; [|split].
  - rewrite Hcommit. split; [reflexivity|].
    unfold commit.
    destruct (_advance_iter_recursive 4 _) as [[r|e] a l]; simpl; auto.
  - intros t Hyt Hlt Hgt. rewrite Hcommit.
    rewrite (resolution_valid 4 _ ys (S k)) with (t := t);
      [repeat split; reflexivity|reflexivity|reflexivity|exact Hyt|exact Hgt|].
    apply (pyfloat_lt_not_ge _ _ Hlt).
  - intros n. split; [reflexivity|].
    apply calls_past_zero; [|exact Hstop].
    split; [reflexivity|]. right. exists PyFloat.zero.
    split; [reflexivity|]. left. reflexivity.
Qed.

Lemma zero_after_first_timestep_witness :
  let m := model_stopping_at (PyFloat.lit 10.0) in
  let w := new_writer m true true (iter [F 0.0; F 0.0; F 3.0]) in
  let o1 := advance_iter w in
  PyFloat.lt PyFloat.zero (stop (clock m)) = true
  /\ value o1 = Return (Some PyFloat.zero)
  /\ value (advance_iter (after o1)) = Return (Some (PyFloat.lit 3.0))
  /\ outputs (calls 4 w) = PyFloat.zero :: outputs (calls 3 (after o1))
  /\ none_zero (outputs (calls 3 (after o1)))
  /\ outputs (calls 4 w)
     = [PyFloat.zero; PyFloat.lit 3.0; PyFloat.lit 10.0].
Proof.
  cbv zeta.
  destruct (zero_after_first_timestep (model_stopping_at (PyFloat.lit 10.0))
              true (fun k => nth k [F 0.0; F 0.0; F 3.0] PyNone) 0
              PyFloat.zero)
    as ((H1 & _) & _ & _ & H4);
    [reflexivity|reflexivity|vm_compute; reflexivity|].
  destruct (H4 3) as [Ho Hnz].
  split; [vm_compute; reflexivity|]. split; [exact H1|].
  split; [vm_compute; reflexivity|]. split; [exact Ho|].
  split; [exact Hnz|]. vm_compute. reflexivity.
Defined.

(** C10 as stated fails when the stop time is zero: the first call
    returns 0.0 from the flag, and the second finds the pending time
    equal to the stop time and returns [None] at once; the zero of the
    iterator is never pulled. *)
Lemma zero_stop_time_never_pulls :
  let w := new_writer (model_stopping_at PyFloat.zero) true true
             (iter [F 0.0; F 3.0]) in
  let o1 := advance_iter w in
  let o2 := advance_iter (after o1) in
  value o1 = Return (Some PyFloat.zero)
  /\ value o2 = Return None
  /\ pulled_so_far (after o1) = Some 0
  /\ pulled_so_far (after o2) = Some 0.
Proof. cbv zeta. repeat split; vm_compute; reflexivity. Qed.

Lemma StronglySorted_weaken {A : Type} (R S : A -> A -> Prop) (l : list A) :
  (forall a b, R a b -> S a b) -> StronglySorted R l -> StronglySorted S l.
Proof.
  intros HRS Hl. induction Hl as [|a l Hl IH Ha]; constructor.
  - exact IH.
  - eapply Forall_impl; [exact Ha|]. intros b. apply HRS.
Qed.

(** C2, as the code has it.  For a writer fresh from [__init__] and
    [register_times_iter], an iterator that never gives NaN, a stop time
    that is not NaN, and a stop time of at least zero when
    [save_first_timestep] is set: in every run of calls none of which
    raises, the times handed out increase (each is at least the one
    before and differs from it, so none comes twice), and after every
    call the pending time is [None] or a float at most the stop time
    and greater than the previous output time, with no exception for
    zero.  The times increase strictly. *)
Theorem advance_iter_monotone
    (m : Model) (save_first save_last : bool) (ys : nat -> pyvalue)
    (k n : nat) :
  (forall i x, ys i = PyFloat x -> PyFloat.is_nan x = false) ->
  PyFloat.is_nan (stop (clock m)) = false ->
  (save_first = true -> PyFloat.le PyFloat.zero (stop (clock m)) = true) ->
  let tr := calls n (new_writer m save_first save_last (Iterator ys k)) in
  Forall returned tr ->
  strictly_monotone_run tr /\ monotone_run tr.
Proof.
  intros Hnan Hstop Hzero tr Hret.
  destruct (calls_sound n _
              (new_writer_sound m save_first save_last ys k Hnan Hstop Hzero)
              Hret) as (Hs & Ho & _).
  split; split.
  - exact Ho.
  - eapply Forall_impl; [exact Hs|]. intros o. apply sound_next_beyond_prev.
  - apply (StronglySorted_weaken _ _ _ lt_increasing Ho).
  - eapply Forall_impl; [exact Hs|]. intros o. apply sound_next_in_range.
Qed.

Lemma advance_iter_monotone_witness :
  let tr := calls 5 (new_writer (model_stopping_at (PyFloat.lit 10.0))
                       true true (iter out_of_order)) in
  Forall returned tr
  /\ outputs tr
     = [PyFloat.zero; PyFloat.lit 1.0; PyFloat.lit 2.0; PyFloat.lit 5.0;
        PyFloat.lit 10.0]
  /\ strictly_monotone_run tr
  /\ monotone_run tr.
Proof.
  cbv zeta.
  assert (Hret : Forall returned
                   (calls 5 (new_writer (model_stopping_at (PyFloat.lit 10.0))
                               true true (iter out_of_order))))
    by (vm_compute; repeat constructor).
  split; [exact Hret|]. split; [vm_compute; reflexivity|].
  apply (advance_iter_monotone (model_stopping_at (PyFloat.lit 10.0))
           true true (fun k => nth k out_of_order PyNone) 0 5).
  - apply no_nan_iter. vm_compute. reflexivity.
  - vm_compute. reflexivity.
  - intros _. vm_compute. reflexivity.
  - exact Hret.
Defined.

(** C2 as stated fails.  An iterator that gives NaN: the NaN is handed
    out (no comparison with it holds, so it is neither past the stop
    time nor skipped) and is then the pending time, which is not at
    most the stop time; after 1.0 it is handed out as well, and 1.0 and
    NaN do not increase.  A negative stop time with
    [save_first_timestep] set: the first call returns 0.0, which is
    past the stop time.  No call of these runs raises. *)
Lemma monotone_run_fails :
  let run_nan := calls 1 (new_writer (model_stopping_at (PyFloat.lit 10.0))
                            false true (iter [PyFloat PyFloat.nan])) in
  let run_one_nan :=
    calls 2 (new_writer (model_stopping_at (PyFloat.lit 10.0))
               false true (iter [F 1.0; PyFloat PyFloat.nan])) in
  let run_negative :=
    calls 1 (new_writer (model_stopping_at (PyFloat.lit (-1.0)))
               true true (iter [F 1.0])) in
  (Forall returned run_nan /\ ~ monotone_run run_nan)
  /\ (Forall returned run_one_nan /\ ~ monotone_run run_one_nan)
  /\ (Forall returned run_negative /\ ~ monotone_run run_negative).
Proof.
  cbv zeta. split; [|split]; (split; [vm_compute; repeat constructor|]).
  - intros [_ H]. apply Forall_inv in H. vm_compute in H.
    destruct H as [Hle _]. discriminate.
  - intros [H _]. vm_compute in H. apply StronglySorted_inv in H as [_ Hall].
    apply Forall_inv in Hall. vm_compute in Hall.
    destruct Hall as [Hle _]. discriminate.
  - intros [_ H]. apply Forall_inv in H. vm_compute in H.
    destruct H as [Hle _]. discriminate.
Qed.

(* ===================================================================== *)
(** ** Further properties of the scheduler *)
(* ===================================================================== *)

(** What no call of [advance_iter] touches, whether it returns or
    raises: the model, [save_last_timestep] and the registry. *)
Lemma advance_iter_frame (w : writer) :
  let w' := after (advance_iter w) in
  model w' = model w
  /\ _save_last_timestep w' = _save_last_timestep w
  /\ _output_filepaths w' = _output_filepaths w.
Proof.
  cbv zeta. rewrite advance_iter_eq.
  destruct (shift_prev_fields w) as (Sm & _ & Sl & _ & _ & _ & Sp & _).
  destruct (resolution_frame 5 (shift_prev w)) as (Fm & Fl & _ & _ & _ & Fp).
  destruct (_times_iter w) as [| |ys k]; [simpl; auto..|].
  destruct (_is_exhausted w).
  { destruct (is_Some _); simpl; auto. }
  destruct (negb _); [simpl; auto|].
  destruct (next_eq_stop _ _); [simpl; auto|].
  unfold commit. revert Fm Fl Fp.
  generalize (_advance_iter_recursive 5 (shift_prev w)).
  intros [[[t|]|e] a l]; simpl; intros -> -> ->; auto.
Qed.

(** One call pulls at most six values from the iterator (the first
    five may be skipped), and the iterator never goes back; this holds
    for the calls that raise as well. *)
Theorem advance_iter_pulls_at_most_six
    (w : writer) (ys : nat -> pyvalue) (k : nat) :
  _times_iter w = Iterator ys k ->
  exists k', _times_iter (after (advance_iter w)) = Iterator ys k'
             /\ k <= k' <= k + 6.
Proof.
  intros Hit. rewrite advance_iter_eq, Hit.
  destruct (shift_prev_fields w) as (_ & _ & _ & Si & _).
  assert (Hsame : exists k', _times_iter w = Iterator ys k' /\ k <= k' <= k + 6)
    by (exists k; split; [exact Hit|lia]).
  destruct (_is_exhausted w).
  { destruct (is_Some _); exact Hsame. }
  destruct (negb _); [exact Hsame|].
  destruct (next_eq_stop _ _).
  { simpl. rewrite Si. exact Hsame. }
  destruct (resolution_iterator 5 (shift_prev w) ys k) as (k' & Hk' & Hle);
    [congruence|].
  exists k'. split; [|lia]. unfold commit. revert Hk'.
  generalize (_advance_iter_recursive 5 (shift_prev w)).
  intros [[[t|]|e] a l]; simpl; auto.
Qed.

Lemma advance_iter_pulls_at_most_six_witness :
  exists k', _times_iter
               (after (advance_iter
                         (after (advance_iter
                                   (new_writer
                                      (model_stopping_at (PyFloat.lit 10.0))
                                      false true (iter regressions6))))))
             = Iterator (fun k => nth k regressions6 PyNone) k'
             /\ 1 <= k' <= 1 + 6.
Proof.
  apply (advance_iter_pulls_at_most_six
           (after (advance_iter
                     (new_writer (model_stopping_at (PyFloat.lit 10.0))
                        false true (iter regressions6))))
           (fun k => nth k regressions6 PyNone) 1).
  vm_compute. reflexivity.
Defined.

(** The resolution raises [RecursionError] only after skipping as many
    values as it has retries, and one more. *)
Lemma resolution_recursion_error
    (n : nat) (w : writer) (ys : nat -> pyvalue) (k : nat) :
  _times_iter w = Iterator ys k ->
  value (_advance_iter_recursive n w) = Raise RecursionError ->
  _save_first_timestep w = false
  /\ forall i, i < S n -> skipped w (ys (k + i)) = true.
Proof.
  revert w k. induction n as [|n IH]; intros w k Hit;
    rewrite _advance_iter_recursive_eq, Hit.
  all: destruct (_save_first_timestep w) eqn:Ef; [discriminate|].
  all: cbv zeta; destruct (ys k) as [|t|] eqn:Eyk; try discriminate.
  all: destruct (PyFloat.gt t (stop_time w)) eqn:Egt; [discriminate|].
  all: destruct (not_None_and_ge (_prev_output_time w) t) eqn:Ege;
    [|discriminate].
  all: assert (Hk : skipped w (ys (k + 0)) = true)
    by (rewrite Nat.add_0_r, Eyk; unfold skipped; rewrite Egt, Ege;
        reflexivity).
  - intros _. split; [reflexivity|]. intros i Hi.
    replace i with 0 by lia. exact Hk.
  - unfold after_warnings. cbn [value]. intros Hv.
    destruct (IH (set_times_iter (Iterator ys (S k)) w) (S k) eq_refl Hv)
      as [_ Hrest].
    split; [reflexivity|]. intros [|i] Hi; [exact Hk|].
    rewrite Nat.add_succ_r. apply (Hrest i). lia.
Qed.

(** [advance_iter] raises [RecursionError] exactly when it reaches the
    resolution and the next six values of the iterator are all skipped:
    floats not past the stop time that the previous output time has
    reached. *)
Theorem recursion_error_iff_six_skips (w : writer) :
  value (advance_iter w) = Raise RecursionError
  <-> exists ys k,
        _times_iter w = Iterator ys k
        /\ resolving w
        /\ _save_first_timestep w = false
        /\ forall i, i < 6 -> skipped (shift_prev w) (ys (k + i)) = true.
Proof.
  split.
  - rewrite advance_iter_eq.
    destruct (_times_iter w) as [| |ys k] eqn:Hit; [discriminate..|].
    destruct (_is_exhausted w) eqn:Hex.
    { destruct (is_Some _); discriminate. }
    destruct (negb _) eqn:Hle; [discriminate|].
    apply negb_false_iff in Hle.
    destruct (next_eq_stop _ _) eqn:Heq; [discriminate|].
    intros Hv.
    destruct (shift_prev_fields w) as (_ & Sf & _ & Si & _).
    assert (Hres : value (_advance_iter_recursive 5 (shift_prev w))
                   = Raise RecursionError).
    { revert Hv. unfold commit.
      generalize (_advance_iter_recursive 5 (shift_prev w)).
      intros [[r|e] a l]; simpl; [discriminate|auto]. }
    destruct (resolution_recursion_error 5 (shift_prev w) ys k
                ltac:(congruence) Hres) as [Hf Hskip].
    exists ys, k. repeat split; try assumption. congruence.
  - intros (ys & k & Hit & Hres & Hfirst & Hskip).
    apply (advance_iter_no_retry_left_warned w ys k Hres Hfirst Hit Hskip).
Qed.

(** The warnings of the resolution: at most one for each retry, each
    for a time that the previous output time has reached, the two not
    being both zero. *)
Lemma resolution_warnings (n : nat) (w : writer) :
  length (warned (_advance_iter_recursive n w)) <= n
  /\ Forall (fun wn =>
               category wn = OutputIteratorSkipWarning
               /\ exists p x,
                    _prev_output_time w = Some p
                    /\ message wn = get_message x p
                    /\ PyFloat.ge p x = true
                    /\ PyFloat.eq p PyFloat.zero
                       && PyFloat.eq x PyFloat.zero = false)
            (warned (_advance_iter_recursive n w)).
Proof.
  revert w. induction n as [|n IH]; intros w;
    rewrite _advance_iter_recursive_eq.
  all: destruct (_save_first_timestep w); [simpl; split; [lia|constructor]|].
  all: destruct (_times_iter w) as [| |ys k];
    [simpl; split; [lia|constructor]..|].
  all: cbv zeta; destruct (ys k) as [|t|];
    [simpl; split; [lia|constructor]| |simpl; split; [lia|constructor]].
  all: destruct (PyFloat.gt t (stop_time w));
    [simpl; split; [lia|constructor]|].
  all: destruct (not_None_and_ge (_prev_output_time w) t) eqn:Ege;
    [|simpl; split; [lia|constructor]].
  - simpl. split; [lia|constructor].
  - unfold after_warnings. cbn [warned].
    destruct (IH (set_times_iter (Iterator ys (S k)) w)) as [Hlen Hall].
    change (_prev_output_time (set_times_iter (Iterator ys (S k)) w))
      with (_prev_output_time w) in Hall.
    unfold skip_warnings.
    destruct (_prev_output_time w) as [p|] eqn:Hp; [|discriminate].
    simpl in Ege.
    destruct (negb _) eqn:Hz.
    + split; [simpl; lia|]. constructor; [|exact Hall].
      split; [reflexivity|]. exists p, t.
      repeat split; try assumption. apply negb_true_iff, Hz.
    + split; [simpl; lia|exact Hall].
Qed.


(* ===================================================================== *)
(** ** Further properties of the registry *)
(* ===================================================================== *)

Lemma register_output_filepath_registry (filepath : string) (w : writer) :
  _output_filepaths (after (register_output_filepath filepath w)) =
  if bool_decide (filepath ∈ _output_filepaths w) then _output_filepaths w
  else _output_filepaths w ++ [filepath].
Proof.
  unfold register_output_filepath, is_file_registered, bind, read, ret, assign.
  simpl. destruct (bool_decide _); simpl; [reflexivity|].
  destruct w; reflexivity.
Qed.

(** A registry without duplicates stays so whatever is registered, in
    whatever order and however often: it is extended at its end only,
    and holds the paths it held and the registered ones, nothing
    else. *)
Theorem registry_no_duplicates (filepaths : list string) (w : writer) :
  NoDup (_output_filepaths w) ->
  let w' := register_all filepaths w in
  NoDup (_output_filepaths w')
  /\ _output_filepaths w `prefix_of` _output_filepaths w'
  /\ forall f, f ∈ _output_filepaths w'
               <-> f ∈ _output_filepaths w \/ f ∈ filepaths.
Proof.
  cbv zeta. revert w.
  induction filepaths as [|filepath filepaths IH]; intros w Hw.
  { simpl. split; [exact Hw|]. split; [reflexivity|].
    intros f. rewrite elem_of_nil. tauto. }
  change (register_all (filepath :: filepaths) w)
    with (register_all filepaths (after (register_output_filepath filepath w))).
  pose proof (register_output_filepath_registry filepath w) as Hreg.
  destruct (bool_decide (filepath ∈ _output_filepaths w)) eqn:Hin.
  - apply bool_decide_eq_true in Hin.
    destruct (IH (after (register_output_filepath filepath w)))
      as (Hnd & Hpre & Hmem); [rewrite Hreg; exact Hw|].
    rewrite Hreg in Hpre, Hmem.
    split; [exact Hnd|]. split; [exact Hpre|].
    intros f. rewrite Hmem, elem_of_cons.
    split; [tauto|]. intros [H|[->|H]]; auto.
  - apply bool_decide_eq_false in Hin.
    destruct (IH (after (register_output_filepath filepath w)))
      as (Hnd & Hpre & Hmem).
    { rewrite Hreg. apply NoDup_app. split; [exact Hw|].
      split; [|apply NoDup_singleton].
      intros f Hf ->%list_elem_of_singleton. exact (Hin Hf). }
    rewrite Hreg in Hpre, Hmem.
    split; [exact Hnd|]. split.
    + etransitivity; [|exact Hpre]. apply prefix_app_r. reflexivity.
    + intros f. rewrite Hmem, elem_of_app, list_elem_of_singleton, elem_of_cons.
      tauto.
Qed.

Lemma registry_no_duplicates_witness :
  let w := register_all ["a.nc"; "b.txt"; "a.nc"]
             (__init__ (model_stopping_at (PyFloat.lit 10.0)) false true) in
  _output_filepaths w = ["a.nc"; "b.txt"]
  /\ NoDup (_output_filepaths w).
Proof.
  cbv zeta. split; [vm_compute; reflexivity|].
  apply (registry_no_duplicates ["a.nc"; "b.txt"; "a.nc"]
           (__init__ (model_stopping_at (PyFloat.lit 10.0)) false true)).
  simpl. apply NoDup_nil_2.
Defined.

Section Registry.

Variable splitext : string -> string * string.
Variable filesystem : Type.
Variable os_remove : string -> filesystem -> removal * filesystem.

Lemma get_loop_filter (only_extension : option string)
    (output_filepaths return_filepaths : list string) :
  fold_left
    (fun return_filepaths filepath =>
       if selected splitext only_extension filepath
       then return_filepaths ++ [filepath]
       else return_filepaths)
    output_filepaths return_filepaths
  = return_filepaths
    ++ List.filter (selected splitext only_extension) output_filepaths.
Proof.
  revert return_filepaths.
  induction output_filepaths as [|f l IH]; intros acc; simpl.
  - rewrite app_nil_r. reflexivity.
  - rewrite IH. destruct (selected splitext only_extension f);
      [rewrite <- app_assoc|]; reflexivity.
Qed.

Lemma filter_selected_None (l : list string) :
  List.filter (selected splitext None) l = l.
Proof. induction l as [|f l IH]; simpl; [|rewrite IH]; reflexivity. Qed.

Lemma get_output_filepaths_eq (only_extension : option string) (w : writer) :
  get_output_filepaths splitext only_extension w
  = Outcome (Return (List.filter (selected splitext only_extension)
                       (_output_filepaths w))) w [].
Proof.
  unfold get_output_filepaths, bind, read, ret. cbn [value after warned].
  rewrite get_loop_filter. reflexivity.
Qed.


(** The loop of [delete_output_files] when it comes to its end. *)
Lemma delete_loop_kept (only_extension : option string)
    (output_filepaths : list string) :
  forall keep_filepaths fs printed keep' fs' printed',
    delete_loop splitext filesystem os_remove only_extension
      output_filepaths keep_filepaths fs printed
    = (Some keep', fs', printed') ->
    exists kept,
      keep' = keep_filepaths ++ kept
      /\ sublist kept output_filepaths
      /\ List.filter (unselected splitext only_extension) kept
         = List.filter (unselected splitext only_extension) output_filepaths
      /\ printed'
         = printed
           ++ repeat windows_message
                (length (List.filter (selected splitext only_extension) kept)).
Proof.
  unfold unselected.
  induction output_filepaths as [|f l IH];
    intros keep fs printed keep' fs' printed'; simpl.
  { intros [= <- <- <-]. exists []. rewrite !app_nil_r.
    repeat split; constructor. }
  destruct (selected splitext only_extension f) eqn:Hsel.
  - destruct (os_remove f fs) as [[| |] fs1]; [| |discriminate].
    + intros H. destruct (IH _ _ _ _ _ _ H) as (kept & -> & Hsub & Hun & ->).
      exists kept. repeat split; try assumption.
      * apply sublist_cons, Hsub.
    + intros H. destruct (IH _ _ _ _ _ _ H) as (kept & -> & Hsub & Hun & ->).
      exists (f :: kept). simpl. rewrite Hsel. simpl.
      rewrite <- !app_assoc. repeat split; try assumption.
      apply sublist_skip, Hsub.
  - intros H. destruct (IH _ _ _ _ _ _ H) as (kept & -> & Hsub & Hun & ->).
    exists (f :: kept). simpl. rewrite Hsel. simpl.
    rewrite <- !app_assoc, Hun. repeat split; try assumption.
    apply sublist_skip, Hsub.
Qed.


Lemma delete_loop_all_removed (only_extension : option string)
    (output_filepaths : list string) :
  (forall f fs, f ∈ output_filepaths ->
                selected splitext only_extension f = true ->
                fst (os_remove f fs) = Removed) ->
  forall keep_filepaths fs printed,
    exists fs',
      delete_loop splitext filesystem os_remove only_extension
        output_filepaths keep_filepaths fs printed
      = (Some (keep_filepaths
               ++ List.filter (unselected splitext only_extension)
                    output_filepaths), fs', printed).
Proof.
  unfold unselected.
  induction output_filepaths as [|f l IH]; intros Hrm keep fs printed; simpl.
  { exists fs. rewrite app_nil_r. reflexivity. }
  assert (Hl : forall g fs, g ∈ l ->
                 selected splitext only_extension g = true ->
                 fst (os_remove g fs) = Removed)
    by (intros g fs0 Hg; apply Hrm; right; exact Hg).
  destruct (selected splitext only_extension f) eqn:Hsel; simpl.
  - pose proof (Hrm f fs ltac:(left) Hsel) as Hf.
    destruct (os_remove f fs) as [r fs1]. simpl in Hf. subst r.
    apply IH, Hl.
  - destruct (IH Hl (keep ++ [f]) fs printed) as [fs' ->].
    exists fs'. rewrite <- app_assoc. reflexivity.
Qed.

Lemma filter_selected_unselected (only_extension : option string)
    (l : list string) :
  List.filter (selected splitext only_extension)
    (List.filter (unselected splitext only_extension) l) = [].
Proof.
  unfold unselected. induction l as [|f l IH]; simpl; [reflexivity|].
  destruct (selected splitext only_extension f) eqn:Hsel; simpl;
    [|rewrite Hsel]; exact IH.
Qed.


Lemma delete_loop_raises (only_extension : option string) (f : string)
    (output_filepaths : list string) :
  f ∈ output_filepaths ->
  selected splitext only_extension f = true ->
  (forall fs, fst (os_remove f fs) = RaisedOther) ->
  forall keep_filepaths fs printed,
    fst (fst (delete_loop splitext filesystem os_remove only_extension
                output_filepaths keep_filepaths fs printed)) = None.
Proof.
  intros Hin Hsel Hraise.
  induction output_filepaths as [|g l IH]; intros keep fs printed.
  { apply elem_of_nil in Hin. contradiction. }
  simpl. apply elem_of_cons in Hin as [<-|Hin].
  - rewrite Hsel. pose proof (Hraise fs) as Hf.
    destruct (os_remove f fs) as [r fs1]. simpl in Hf. subst r. reflexivity.
  - destruct (selected splitext only_extension g); [|apply IH, Hin].
    destruct (os_remove g fs) as [[| |] fs1]; [apply IH, Hin..|reflexivity].
Qed.


End Registry.




(* ===================================================================== *)
(** ** Further properties of runs *)
(* ===================================================================== *)

(** The resolution returns [None] only when no final output is due. *)
Lemma resolution_None (n : nat) (w : writer) :
  value (_advance_iter_recursive n w) = Return None ->
  _save_first_timestep w = false
  /\ stop_or_None (_save_last_timestep w) (_prev_output_time w) (stop_time w)
     = None.
Proof.
  revert w. induction n as [|n IH]; intros w;
    rewrite _advance_iter_recursive_eq.
  all: destruct (_save_first_timestep w) eqn:Ef; [discriminate|].
  all: destruct (_times_iter w) as [| |ys k]; [discriminate..|].
  all: cbv zeta; destruct (ys k) as [|t|];
    [ simpl; intros [= H]; auto | | discriminate ].
  all: destruct (PyFloat.gt t (stop_time w)); [simpl; intros [= H]; auto|].
  all: destruct (not_None_and_ge (_prev_output_time w) t); try discriminate.
  unfold after_warnings. cbn [value]. intros Hv.
  destruct (IH (set_times_iter (Iterator ys (S k)) w) Hv) as [_ H].
  split; [reflexivity|exact H].
Qed.

(** A call that returns [None] was made after a time equal to the stop
    time had been handed out. *)
Lemma advance_iter_None_after_stop (w : writer)
    (last_output : option spec_float) :
  last_output_kept w last_output ->
  value (advance_iter w) = Return None ->
  exists t, last_output = Some t /\ PyFloat.eq t (stop_time w) = true.
Proof.
  intros (Hsl & Hexh & Hrun). rewrite advance_iter_eq.
  destruct (shift_prev_fields w) as (Sm & _ & Sl & _ & _ & _ & _ & Sp).
  destruct (_times_iter w) as [| |ys k]; [discriminate..|].
  destruct (_is_exhausted w) eqn:Hex.
  { intros _. apply Hexh. reflexivity. }
  destruct (Hrun eq_refl) as [Hnext Hfresh].
  assert (Hres : value (_advance_iter_recursive 5 (shift_prev w))
                 = Return None ->
                 stop_or_None true (_prev_output_time (shift_prev w))
                   (stop_time w) = None).
  { intros Hv. destruct (resolution_None 5 (shift_prev w) Hv) as [_ H].
    unfold stop_time in *. rewrite Sl, Sm, Hsl in H. exact H. }
  rewrite Hnext in *.
  destruct last_output as [t|]; cbn [next_le_stop next_eq_stop].
  - destruct (PyFloat.le t (stop_time w)) eqn:Hle; [|discriminate].
    cbn [negb].
    destruct (PyFloat.eq t (stop_time w)) eqn:Heq; [eauto|].
    intros Hv. exfalso.
    assert (Hnone : value (_advance_iter_recursive 5 (shift_prev w))
                    = Return None).
    { revert Hv. unfold commit.
      generalize (_advance_iter_recursive 5 (shift_prev w)).
      intros [[[x|]|e] a l]; simpl; congruence. }
    specialize (Hres Hnone). rewrite Sp in Hres. simpl in Hres.
    rewrite (pyfloat_le_not_eq_lt _ _ Hle Heq) in Hres. discriminate.
  - cbn [negb]. intros Hv. exfalso.
    assert (Hnone : value (_advance_iter_recursive 5 (shift_prev w))
                    = Return None).
    { revert Hv. unfold commit.
      generalize (_advance_iter_recursive 5 (shift_prev w)).
      intros [[[x|]|e] a l]; simpl; congruence. }
    specialize (Hres Hnone). rewrite Sp, (Hfresh eq_refl) in Hres.
    discriminate.
Qed.

Lemma advance_iter_last_output (w : writer)
    (last_output r : option spec_float) :
  last_output_kept w last_output ->
  value (advance_iter w) = Return r ->
  last_output_kept (after (advance_iter w)) (last_output_after r last_output)
  /\ stop_time (after (advance_iter w)) = stop_time w.
Proof.
  intros Hw Hv.
  destruct (advance_iter_returned w r Hv) as (Hn' & He' & Hm' & _).
  destruct (advance_iter_frame w) as (_ & Hl' & _).
  assert (Hs' : stop_time (after (advance_iter w)) = stop_time w)
    by (unfold stop_time; rewrite Hm'; reflexivity).
  split; [|exact Hs'].
  split; [rewrite Hl'; apply Hw|]. rewrite He', Hn', Hs'.
  destruct r as [x|]; simpl; (split; [|split]); try discriminate; auto.
  intros _. apply (advance_iter_None_after_stop w last_output Hw Hv).
Qed.

Lemma calls_None_after_stop (n : nat) :
  forall (w : writer) (last_output : option spec_float) (i : nat)
         (o : outcome (option spec_float)),
    last_output_kept w last_output ->
    calls n w !! i = Some o ->
    value o = Return None ->
    exists t,
      last_output_after (last (outputs (take i (calls n w)))) last_output
      = Some t
      /\ PyFloat.eq t (stop_time w) = true.
Proof.
  induction n as [|n IH]; intros w lo i o Hw Hi Ho; [discriminate|].
  rewrite calls_S in Hi |- *.
  destruct i as [|i].
  { injection Hi as <-. simpl.
    apply (advance_iter_None_after_stop w lo Hw Ho). }
  cbn [lookup list_lookup] in Hi.
  destruct (value (advance_iter w)) as [r|e] eqn:Hv; [|discriminate].
  destruct (advance_iter_last_output w lo r Hw Hv) as [Hw' Hs'].
  destruct (IH _ _ i o Hw' Hi Ho) as (t & Ht & Heq).
  exists t. split; [|rewrite <- Hs'; exact Heq].
  rewrite firstn_cons, outputs_cons. unfold output_of. rewrite Hv.
  destruct r as [x|]; [|exact Ht].
  rewrite last_cons. unfold last_output_after in Ht |- *.
  destruct (last (outputs (take i (calls n (after (advance_iter w))))));
    exact Ht.
Qed.

(** With [save_last_timestep] set, a writer fresh from [__init__] and
    [register_times_iter] does not return [None] before it has handed
    out a time equal to the stop time, whatever its iterator gives:
    whenever a call of a run returns [None], the last time handed out
    before it equals the stop time. *)
Theorem stop_time_before_None
    (m : Model) (save_first : bool) (times_iter : times_obj)
    (n i : nat) (o : outcome (option spec_float)) :
  let tr := calls n (new_writer m save_first true times_iter) in
  tr !! i = Some o ->
  value o = Return None ->
  exists t, last (outputs (take i tr)) = Some t
            /\ PyFloat.eq t (stop (clock m)) = true.
Proof.
  cbv zeta. intros Hi Ho.
  destruct (calls_None_after_stop n (new_writer m save_first true times_iter)
              None i o) as (t & Ht & Heq); [|exact Hi|exact Ho|].
  { split; [reflexivity|]. split; [discriminate|]. intros _. split; reflexivity. }
  exists t. split; [|exact Heq].
  unfold last_output_after in Ht.
  destruct (last _); [exact Ht|discriminate].
Qed.

Lemma stop_time_before_None_witness :
  let tr := calls 4 (new_writer (model_stopping_at (PyFloat.lit 10.0))
                       false true (iter [F 1.0; F 0.5; F 100.0])) in
  map value tr
  = [Return (Some (PyFloat.lit 1.0)); Return (Some (PyFloat.lit 10.0));
     Return None; Return None]
  /\ exists t, last (outputs (take 2 tr)) = Some t
               /\ PyFloat.eq t (PyFloat.lit 10.0) = true.
Proof.
  cbv zeta. split; [vm_compute; reflexivity|].
  apply (stop_time_before_None (model_stopping_at (PyFloat.lit 10.0)) false
           (iter [F 1.0; F 0.5; F 100.0]) 4 2
           (advance_iter
              (after (advance_iter
                        (after (advance_iter
                                  (new_writer
                                     (model_stopping_at (PyFloat.lit 10.0))
                                     false true
                                     (iter [F 1.0; F 0.5; F 100.0])))))))).
  - vm_compute. reflexivity.
  - vm_compute. reflexivity.
Defined.

(** On an iterator of floats the resolution raises nothing but
    [RecursionError]. *)
Lemma resolution_raises (n : nat) (w : writer) (e : exn) :
  only_floats (_times_iter w) ->
  value (_advance_iter_recursive n w) = Raise e -> e = RecursionError.
Proof.
  revert w. induction n as [|n IH]; intros w;
    rewrite _advance_iter_recursive_eq.
  all: destruct (_save_first_timestep w); [discriminate|].
  all: destruct (_times_iter w) as [| |ys k] eqn:Hit; [contradiction..|].
  all: cbv zeta; intros Hfl; pose proof (Hfl k) as Hk.
  all: destruct (ys k) as [|t|]; [discriminate| |contradiction].
  all: destruct (PyFloat.gt t (stop_time w)); [discriminate|].
  all: destruct (not_None_and_ge (_prev_output_time w) t); try discriminate.
  - simpl. congruence.
  - unfold after_warnings. cbn [value]. intros Hv.
    apply (IH (set_times_iter (Iterator ys (S k)) w)); [exact Hfl|exact Hv].
Qed.

Lemma advance_iter_raises (w : writer) (e : exn) :
  sound w -> only_floats (_times_iter w) ->
  value (advance_iter w) = Raise e -> e = RecursionError.
Proof.
  intros (_ & _ & _ & _ & Hnext & Hexh) Hfl. rewrite advance_iter_eq.
  destruct (shift_prev_fields w) as (_ & _ & _ & Si & _).
  destruct (_times_iter w) as [| |ys k] eqn:Hit; [contradiction..|].
  destruct (_is_exhausted w).
  { rewrite (Hexh eq_refl). discriminate. }
  destruct (_next_output_time w) as [t|] eqn:Hn; cbn [next_le_stop next_eq_stop].
  - destruct (Hnext t eq_refl) as [-> _]. cbn [negb].
    destruct (PyFloat.eq t (stop_time w)); [discriminate|].
    pose proof (resolution_raises 5 (shift_prev w) e) as Hr.
    rewrite Si in Hr. specialize (Hr Hfl).
    unfold commit. revert Hr.
    generalize (_advance_iter_recursive 5 (shift_prev w)).
    intros [[r|e'] a l]; simpl; [discriminate|auto].
  - cbn [negb].
    pose proof (resolution_raises 5 (shift_prev w) e) as Hr.
    rewrite Si in Hr. specialize (Hr Hfl).
    unfold commit. revert Hr.
    generalize (_advance_iter_recursive 5 (shift_prev w)).
    intros [[r|e'] a l]; simpl; [discriminate|auto].
Qed.

Lemma calls_raise_RecursionError (n : nat) (w : writer) :
  sound w -> only_floats (_times_iter w) ->
  Forall (fun o => forall e, value o = Raise e -> e = RecursionError)
    (calls n w).
Proof.
  revert w. induction n as [|n IH]; intros w Hw Hfl; [constructor|].
  rewrite calls_S. constructor.
  { intros e. apply (advance_iter_raises w e Hw Hfl). }
  destruct (value (advance_iter w)) as [r|e] eqn:Hv; [|constructor].
  destruct (advance_iter_sound w r Hw Hv) as [Hw' _].
  destruct (advance_iter_returned w r Hv)
    as (_ & _ & _ & ys & k & k' & Hit & Hit' & _).
  apply IH; [exact Hw'|]. rewrite Hit' . rewrite Hit in Hfl. exact Hfl.
Qed.

(** On a writer fresh from [__init__] and [register_times_iter] whose
    iterator gives floats only, none of them NaN, with a stop time that
    is not NaN (and not below zero if [save_first_timestep] is set),
    no call ever raises anything but [RecursionError]: the assertions
    of [advance_iter] never fail. *)
Theorem float_iterator_raises_RecursionError_only
    (m : Model) (save_first save_last : bool) (ys : nat -> pyvalue)
    (k n : nat) :
  (forall i, ys i <> PyOther) ->
  (forall i x, ys i = PyFloat x -> PyFloat.is_nan x = false) ->
  PyFloat.is_nan (stop (clock m)) = false ->
  (save_first = true -> PyFloat.le PyFloat.zero (stop (clock m)) = true) ->
  Forall (fun o => forall e, value o = Raise e -> e = RecursionError)
    (calls n (new_writer m save_first save_last (Iterator ys k))).
Proof.
  intros Hfl Hnan Hstop Hzero.
  apply calls_raise_RecursionError.
  - apply (new_writer_sound m save_first save_last ys k Hnan Hstop Hzero).
  - exact Hfl.
Qed.

Lemma float_iterator_raises_RecursionError_only_witness :
  let tr := calls 3 (new_writer (model_stopping_at (PyFloat.lit 10.0))
                       false true (iter regressions6)) in
  map value tr = [Return (Some (PyFloat.lit 1.0)); Raise RecursionError]
  /\ Forall (fun o => forall e, value o = Raise e -> e = RecursionError) tr.
Proof.
  cbv zeta. split; [vm_compute; reflexivity|].
  apply (float_iterator_raises_RecursionError_only
           (model_stopping_at (PyFloat.lit 10.0)) false true
           (fun k => nth k regressions6 PyNone) 0 3).
  - intros i. do 8 (destruct i as [|i]; [discriminate|]). discriminate.
  - apply no_nan_iter. vm_compute. reflexivity.
  - vm_compute. reflexivity.
  - discriminate.
Defined.
